(** * canopen: the network, its node registry and the routing of frames

    A shallow embedding of [canopen/__init__.py]: the [Network] object
    (outbound queue, transmit loop, node registry, routing), the [Node]
    object (service table) and the [MessageDispatcher] listener.

    Python objects live in a store and are named by references, because
    the code shares them: the registry of a [Network] holds the very [Node]
    object that [add_node] returns, and a later [register_service] on that
    object is seen by routing.  Methods are computations in a state and
    exception monad over that store.  Python's unbounded [int] is [Z], and
    its [&] is [Z.land]. *)

From stdpp Require Import gmap list fin_maps strings.
From Stdlib Require Import ZArith QArith.

Open Scope Z_scope.

(** ** Module constants *)

Definition SDO_RESPONSE : Z := 0x580.
Definition SDO_REQUEST : Z := 0x600.
Definition HEARTBEAT : Z := 0x700.

(** ** Data *)

(** References to [Node] and [Network] objects: positions in the store. *)
Abbreviation node_ref := nat (only parsing).
Abbreviation net_ref := nat (only parsing).

(** The payload of a frame, a Python [bytes]. *)
Abbreviation payload := (list Byte.byte) (only parsing).

(** The callables that a service table holds.  [sdo_on_response r] and
    [nmt_on_response r] are the bound methods [self.sdo.on_response] and
    [self.nmt.on_response] of the engines created by the constructor of the
    [Node] object [r]; [callable h] is any other callable handed to
    [register_service]. *)
Inductive callback :=
  | sdo_on_response (owner : node_ref)
  | nmt_on_response (owner : node_ref)
  | callable (h : nat).

(** [can.Message], with the attributes this module reads or sets. *)
Record can_Message := mk_Message {
  id_type : bool;            (* set by the keyword [extended_id] *)
  arbitration_id : Z;
  data : payload;
  is_remote_frame : bool;
  is_error_frame : bool;
}.

(** What the module does to its collaborators, in the order it happens:
    a service callback is called, the bus is asked to send a frame, the bus
    is shut down, a record is logged.  The callee of a callback is outside
    this module: its call is recorded, and it is taken to return and to
    leave the objects of this module alone. *)
Inductive event :=
  | Invoke (cb : callback) (can_id : Z) (data : payload)
  | BusSend (msg : can_Message)
  | BusShutdown
  | LogInfo (channel_info : string)
  | LogError (msg : can_Message).

(** [self.nodes], seen through the helpers the code uses. *)
Definition dict_values {V} (d : gmap Z V) : list V := (map_to_list d).*2.

(** The exceptions that can leave a method.  [MessageError] is what
    [can.Message] raises for a payload that a frame cannot hold (an
    [AssertionError] or a [ValueError], depending on the release of the
    driver library; never a [can.CanError]).  [InvalidRef] is not a Python
    exception: it marks a reference outside the store, which a
    well-formed store never holds (see [wf_world]). *)
Inductive exn :=
  | AttributeError
  | KeyError
  | ValueError
  | OverflowError
  | MessageError
  | ResolutionError
  | InvalidRef.

(** The result of a call: it returns, it raises, or it has not returned
    (blocked on the queue for ever, or still looping when the fuel of the
    model is spent). *)
Inductive outcome (A : Type) :=
  | Return (a : A)
  | Raise (e : exn)
  | Pending.
Arguments Return {A} a.
Arguments Raise {A} e.
Arguments Pending {A}.

(** The [timeout] argument of [Queue.get]: [None], or a finite number
    (an [int] or a [float]; infinities and NaN are left out). *)
Inductive timeout_arg :=
  | timeout_None
  | timeout_secs (t : Q).

(** The integers from which the conversion to a [float] overflows:
    [2^1024 - 2^970] and above.  No finite [float] is that large. *)
Definition float_limit : Q := inject_Z (2 ^ 1024 - 2 ^ 970).

(** [queue.Queue.get(block=True, timeout=t)] of the Python library on an
    unbounded queue that no other thread feeds meanwhile.  A negative
    timeout is refused with [ValueError].  Then the deadline
    [time() + timeout] is computed, which raises [OverflowError] for an
    integer too large for a [float], whatever the queue holds.  On an empty
    queue the call waits for the remaining time, at most [timeout]:
    [Condition.wait] raises [OverflowError] when that is more than
    [TIMEOUT_MAX], the longest wait of the platform
    ([threading.TIMEOUT_MAX]), and otherwise [queue.Empty] is raised when
    the time is up.  Without a timeout an empty queue waits for ever. *)
Inductive queue_get_result (A : Type) :=
  | got (item : A) (rest : list A)
  | queue_Empty
  | queue_ValueError
  | queue_OverflowError
  | queue_waits.
Arguments got {A} item rest.
Arguments queue_Empty {A}.
Arguments queue_ValueError {A}.
Arguments queue_OverflowError {A}.
Arguments queue_waits {A}.

Definition Queue_get {A} (TIMEOUT_MAX : Q) (q : list A) (timeout : timeout_arg)
    : queue_get_result A :=
  match timeout with
  | timeout_None =>
      match q with
      | [] => queue_waits
      | item :: rest => got item rest
      end
  | timeout_secs t =>
      if negb (Qle_bool 0 t) then queue_ValueError
      else if Qle_bool float_limit t then queue_OverflowError
      else match q with
           | [] => if Qle_bool t TIMEOUT_MAX then queue_Empty
                   else queue_OverflowError
           | item :: rest => got item rest
           end
  end.

(** [queue.Queue.put(item)] on an unbounded queue. *)
Definition Queue_put {A} (q : list A) (item : A) : list A := q ++ [item].

Section canopen.

(** The collaborators that are not part of this module: the longest wait
    of the platform, the descriptions of an object dictionary, the
    resolved dictionaries, the resolver [objectdictionary.import_any]
    ([None] when it raises), and the bus driver, whose [send] raises
    [can.CanError] or returns, depending on the frame and on what happened
    before. *)
Context {Desc OD : Type}.
Variable TIMEOUT_MAX : Q.
Variable import_any : option Desc -> option OD.
Variable send_raises : list event -> can_Message -> bool.

(** The protocol engines a [Node] embeds: [sdo.Node] and [nmt.Node]. *)
Record sdo_Node := mk_sdo_Node {
  sdo_id : Z;
  sdo_object_dictionary : OD;
  sdo_parent : option node_ref;
}.

Record nmt_Node := mk_nmt_Node {
  nmt_id : Z;
  nmt_parent : option node_ref;
}.

Record Node := mk_Node {
  Node_id : Z;
  Node_network : option net_ref;
  Node_service_callbacks : gmap Z callback;
  Node_object_dictionary : OD;
  Node_sdo : sdo_Node;
  Node_nmt : nmt_Node;
}.

Record MessageDispatcher := mk_MessageDispatcher {
  dispatcher_network : net_ref;
}.

(** [can.interface.Bus] and [can.Notifier], as far as the module uses
    them. *)
Record Bus := mk_Bus {
  channel_info : string;
}.

Record Notifier := mk_Notifier {
  notifier_listeners : list MessageDispatcher;
  notifier_running : bool;
}.

(** A [Network].  [stop_event] and [send_thread] exist only once [connect]
    has run, hence the options; [send_thread] records that the thread was
    started. *)
Record Network := mk_Network {
  Network_bus : option Bus;
  Network_dispatcher : MessageDispatcher;
  Network_notifier : option Notifier;
  Network_nodes : gmap Z node_ref;
  Network_tx_queue : list (Z * payload);
  Network_nmt : nmt_Node;
  Network_stop_event : option bool;
  Network_send_thread : option bool;
}.

(** The store, and the effects seen so far (oldest first). *)
Record World := mk_World {
  w_nodes : list Node;
  w_nets : list Network;
  w_trace : list event;
}.

Definition empty_world : World := mk_World [] [] [].

(** ** The monad of methods *)

Definition M (A : Type) : Type := World -> outcome A * World.

#[global] Instance M_ret : MRet M := fun A a w => (Return a, w).

#[global] Instance M_bind : MBind M := fun A B f m w =>
  match m w with
  | (Return a, w') => f a w'
  | (Raise e, w') => (Raise e, w')
  | (Pending, w') => (Pending, w')
  end.

Definition raise {A} (e : exn) : M A := fun w => (Raise e, w).
Definition pending {A} : M A := fun w => (Pending, w).

Definition get_node (r : node_ref) : M Node := fun w =>
  match w_nodes w !! r with
  | Some n => (Return n, w)
  | None => (Raise InvalidRef, w)
  end.

Definition set_node (r : node_ref) (n : Node) : M unit := fun w =>
  (Return tt, mk_World (<[r := n]> (w_nodes w)) (w_nets w) (w_trace w)).

Definition new_node (n : Node) : M node_ref := fun w =>
  (Return (length (w_nodes w)), mk_World (w_nodes w ++ [n]) (w_nets w) (w_trace w)).

Definition get_net (r : net_ref) : M Network := fun w =>
  match w_nets w !! r with
  | Some n => (Return n, w)
  | None => (Raise InvalidRef, w)
  end.

Definition set_net (r : net_ref) (n : Network) : M unit := fun w =>
  (Return tt, mk_World (w_nodes w) (<[r := n]> (w_nets w)) (w_trace w)).

Definition new_net (n : Network) : M net_ref := fun w =>
  (Return (length (w_nets w)), mk_World (w_nodes w) (w_nets w ++ [n]) (w_trace w)).

Definition emit (e : event) : M unit := fun w =>
  (Return tt, mk_World (w_nodes w) (w_nets w) (w_trace w ++ [e])).

Definition get_trace : M (list event) := fun w => (Return (w_trace w), w).

(** [for x in l: body(x)] *)
Fixpoint for_each {A} (l : list A) (body : A -> M unit) : M unit :=
  match l with
  | [] => mret tt
  | x :: l' => body x ;; for_each l' body
  end.

(** Field updates. *)
Definition set_Node_network (v : option net_ref) (n : Node) : Node :=
  mk_Node (Node_id n) v (Node_service_callbacks n) (Node_object_dictionary n)
          (Node_sdo n) (Node_nmt n).

Definition set_Node_service_callbacks (v : gmap Z callback) (n : Node) : Node :=
  mk_Node (Node_id n) (Node_network n) v (Node_object_dictionary n)
          (Node_sdo n) (Node_nmt n).

Definition set_Node_sdo (v : sdo_Node) (n : Node) : Node :=
  mk_Node (Node_id n) (Node_network n) (Node_service_callbacks n)
          (Node_object_dictionary n) v (Node_nmt n).

Definition set_Node_nmt (v : nmt_Node) (n : Node) : Node :=
  mk_Node (Node_id n) (Node_network n) (Node_service_callbacks n)
          (Node_object_dictionary n) (Node_sdo n) v.

Definition set_Network_nodes (v : gmap Z node_ref) (n : Network) : Network :=
  mk_Network (Network_bus n) (Network_dispatcher n) (Network_notifier n) v
             (Network_tx_queue n) (Network_nmt n) (Network_stop_event n)
             (Network_send_thread n).

Definition set_Network_tx_queue (v : list (Z * payload)) (n : Network) : Network :=
  mk_Network (Network_bus n) (Network_dispatcher n) (Network_notifier n)
             (Network_nodes n) v (Network_nmt n) (Network_stop_event n)
             (Network_send_thread n).

Definition modify_node (r : node_ref) (f : Node -> Node) : M unit :=
  n ← get_node r; set_node r (f n).

Definition modify_net (r : net_ref) (f : Network -> Network) : M unit :=
  n ← get_net r; set_net r (f n).

(** ** class Node *)

(** [Node.register_service(self, cob_id, callback)] *)
Definition register_service (self : node_ref) (cob_id : Z) (cb : callback) : M unit :=
  modify_node self (fun n =>
    set_Node_service_callbacks (<[cob_id := cb]> (Node_service_callbacks n)) n).

(** [Node.__init__(self, node_id, object_dictionary)].  When the resolver
    raises, the half-built object is dropped and the store is as before. *)
Definition Node__init__ (node_id : Z) (object_dictionary : option Desc) : M node_ref :=
  match import_any object_dictionary with
  | None => raise ResolutionError
  | Some od =>
      self ← new_node (mk_Node node_id None ∅ od
                               (mk_sdo_Node node_id od None)
                               (mk_nmt_Node node_id None));
      modify_node self (set_Node_sdo (mk_sdo_Node node_id od (Some self)));;
      register_service self SDO_RESPONSE (sdo_on_response self);;
      modify_node self (set_Node_nmt (mk_nmt_Node node_id (Some self)));;
      register_service self HEARTBEAT (nmt_on_response self);;
      mret self
  end.

(** [Node.on_message(self, can_id, data)] *)
Definition on_message (self : node_ref) (can_id : Z) (data : payload) : M unit :=
  let fn_code := Z.land can_id 0x780 in
  n ← get_node self;
  match Node_service_callbacks n !! fn_code with
  | Some cb => emit (Invoke cb can_id data)
  | None => mret tt
  end.

(** ** class Network *)

(** [Network.__init__(self)] *)
Definition Network__init__ : M net_ref := fun w =>
  let self := length (w_nets w) in
  new_net (mk_Network None (mk_MessageDispatcher self) None ∅ []
                      (mk_nmt_Node 0 None) None None) w.

(** [Network.connect(self, channel)]: the bus is opened (the driver is
    taken to succeed), the dispatcher is registered with a notifier, and
    the transmit thread is started. *)
Definition connect (self : net_ref) (channel : string) : M unit :=
  net ← get_net self;
  emit (LogInfo channel);;
  set_net self
    (mk_Network (Some (mk_Bus channel)) (Network_dispatcher net)
                (Some (mk_Notifier [Network_dispatcher net] true))
                (Network_nodes net) (Network_tx_queue net) (Network_nmt net)
                (Some false) (Some true)).

(** [Network.disconnect(self)]: clears the notifier's flag, sets the stop
    event and joins the thread; the [join] changes nothing in the store. *)
Definition disconnect (self : net_ref) : M unit :=
  net ← get_net self;
  match Network_notifier net with
  | None => raise AttributeError
  | Some nf =>
      let net1 :=
        mk_Network (Network_bus net) (Network_dispatcher net)
                   (Some (mk_Notifier (notifier_listeners nf) false))
                   (Network_nodes net) (Network_tx_queue net) (Network_nmt net)
                   (Network_stop_event net) (Network_send_thread net) in
      set_net self net1;;
      match Network_stop_event net1 with
      | None => raise AttributeError
      | Some _ =>
          set_net self
            (mk_Network (Network_bus net1) (Network_dispatcher net1)
                        (Network_notifier net1) (Network_nodes net1)
                        (Network_tx_queue net1) (Network_nmt net1)
                        (Some true) (Network_send_thread net1));;
          match Network_send_thread net1 with
          | None => raise AttributeError
          | Some _ => mret tt
          end
      end
  end.

(** The argument of [add_node]: an [int], or a [Node] object. *)
Inductive node_arg :=
  | arg_int (n : Z)
  | arg_Node (r : node_ref).

(** [Network.add_node(self, node, object_dictionary=None)] *)
Definition add_node (self : net_ref) (node : node_arg)
    (object_dictionary : option Desc) : M node_ref :=
  node ← match node with
          | arg_int n => Node__init__ n object_dictionary
          | arg_Node r => mret r
          end;
  modify_node node (set_Node_network (Some self));;
  n ← get_node node;
  modify_net self (fun net =>
    set_Network_nodes (<[Node_id n := node]> (Network_nodes net)) net);;
  mret node.

(** [Network.send_message(self, can_id, data)] *)
Definition send_message (self : net_ref) (can_id : Z) (data : payload) : M unit :=
  modify_net self (fun net =>
    set_Network_tx_queue (Queue_put (Network_tx_queue net) (can_id, data)) net).

(** [Network.get_message(self, timeout=1)] *)
Definition get_message (self : net_ref) (timeout : timeout_arg)
    : M (option Z * option payload) :=
  net ← get_net self;
  match Queue_get TIMEOUT_MAX (Network_tx_queue net) timeout with
  | got item rest =>
      set_net self (set_Network_tx_queue rest net);;
      mret (Some item.1, Some item.2)
  | queue_Empty => mret (None, None)
  | queue_ValueError => raise ValueError
  | queue_OverflowError => raise OverflowError
  | queue_waits => pending
  end.

(** [Network.put_message(self, can_id, data)] *)
Definition put_message (self : net_ref) (can_id : Z) (data : payload) : M unit :=
  let node_id := Z.land can_id 0x7F in
  net ← get_net self;
  if decide (node_id = 0) then
    for_each (dict_values (Network_nodes net))
             (fun node => on_message node can_id data)
  else
    match Network_nodes net !! node_id with
    | Some node => on_message node can_id data
    | None => mret tt
    end.

(** [can.Message(extended_id=False, arbitration_id=can_id, data=data)]:
    a frame holds at most 8 bytes, and the constructor refuses more. *)
Definition new_Message (can_id : Z) (data : option payload) : M can_Message :=
  if decide (8 < length (default [] data))%nat then raise MessageError
  else mret (mk_Message false can_id (default [] data) false false).

(** The second half of the body of the [while] loop of [_send_to_can]:
    what is done with the pair that [get_message] returned.  The frame is
    built outside the [try], so that only a failure of [send] is caught. *)
Definition transmit (self : net_ref) (item : option Z * option payload) : M unit :=
  let '(can_id, data) := item in
  match can_id with
  | Some can_id =>
      msg ← new_Message can_id data;
      net ← get_net self;
      match Network_bus net with
      | None => raise AttributeError
      | Some _ =>
          tr ← get_trace;
          emit (BusSend msg);;
          if send_raises tr msg then emit (LogError msg) else mret tt
      end
  | None => mret tt
  end.

(** The body of the [while] loop of [_send_to_can]. *)
Definition send_to_can_body (self : net_ref) : M unit :=
  item ← get_message self (timeout_secs 1);
  transmit self item.

(** [Network._send_to_can(self)], the transmit loop; [fuel] bounds the
    number of iterations. *)
Fixpoint _send_to_can (fuel : nat) (self : net_ref) : M unit :=
  net ← get_net self;
  match Network_stop_event net with
  | None => raise AttributeError
  | Some true =>
      match Network_bus net with
      | None => raise AttributeError
      | Some _ => emit BusShutdown
      end
  | Some false =>
      match fuel with
      | O => pending
      | S fuel' => send_to_can_body self;; _send_to_can fuel' self
      end
  end.

(** The mapping interface of [Network]. *)
Definition Network__getitem__ (self : net_ref) (node_id : Z) : M node_ref :=
  net ← get_net self;
  match Network_nodes net !! node_id with
  | Some node => mret node
  | None => raise KeyError
  end.

Definition Network__iter__ (self : net_ref) : M (list Z) :=
  net ← get_net self; mret (map_to_list (Network_nodes net)).*1.

Definition Network__len__ (self : net_ref) : M nat :=
  net ← get_net self; mret (size (Network_nodes net)).

Definition Network__contains__ (self : net_ref) (node_id : Z) : M bool :=
  net ← get_net self; mret (bool_decide (is_Some (Network_nodes net !! node_id))).

(** ** class MessageDispatcher *)

(** [MessageDispatcher.on_message_received(self, msg)] *)
Definition on_message_received (self : MessageDispatcher) (msg : can_Message) : M unit :=
  if id_type msg || is_error_frame msg || is_remote_frame msg then mret tt
  else put_message (dispatcher_network self) (arbitration_id msg) (data msg).

(** ** Histories

    The calls a client program can make, to speak of the worlds that a
    program reaches.  A call that raises leaves the world as it is at the
    point of the exception, and the program may go on. *)
Inductive op :=
  | op_Network
  | op_Node (node_id : Z) (object_dictionary : option Desc)
  | op_register_service (r : node_ref) (cob_id : Z) (cb : callback)
  | op_on_message (r : node_ref) (can_id : Z) (data : payload)
  | op_connect (self : net_ref) (channel : string)
  | op_disconnect (self : net_ref)
  | op_add_node (self : net_ref) (node : node_arg) (object_dictionary : option Desc)
  | op_send_message (self : net_ref) (can_id : Z) (data : payload)
  | op_get_message (self : net_ref) (timeout : timeout_arg)
  | op_put_message (self : net_ref) (can_id : Z) (data : payload)
  | op_send_to_can (fuel : nat) (self : net_ref)
  | op_on_message_received (self : MessageDispatcher) (msg : can_Message).

Definition run_op (o : op) (w : World) : World :=
  match o with
  | op_Network => (Network__init__ w).2
  | op_Node i d => (Node__init__ i d w).2
  | op_register_service r k cb => (register_service r k cb w).2
  | op_on_message r c d => (on_message r c d w).2
  | op_connect s ch => (connect s ch w).2
  | op_disconnect s => (disconnect s w).2
  | op_add_node s n d => (add_node s n d w).2
  | op_send_message s c d => (send_message s c d w).2
  | op_get_message s t => (get_message s t w).2
  | op_put_message s c d => (put_message s c d w).2
  | op_send_to_can f s => (_send_to_can f s w).2
  | op_on_message_received disp m => (on_message_received disp m w).2
  end.

Definition run_ops (ops : list op) (w : World) : World :=
  fold_left (fun w o => run_op o w) ops w.

Definition reachable (w : World) : Prop :=
  exists ops, w = run_ops ops empty_world.


(** What two threads do to one network, as an interleaving of their
    atomic actions: the client calls [send_message]; the transmit thread,
    inside the body of its loop, calls [get_message] and then handles the
    pair it got.  [local] is the pair that the transmit thread holds
    between the two halves of the body; a step of the transmit thread that
    is not its next one does nothing. *)
Inductive step :=
  | step_send_message (can_id : Z) (data : payload)
  | step_get
  | step_transmit.




End canopen.

(** ** Notions used to state the properties *)

(** The world with further effects appended, store untouched. *)
Definition add_trace {OD} (w : World (OD:=OD)) (es : list event) : World :=
  mk_World (w_nodes w) (w_nets w) (w_trace w ++ es).

(** The calls that the service table of a node makes of a frame. *)
Definition service_calls {OD} (n : Node (OD:=OD)) (can_id : Z) (data : payload)
    : list event :=
  match Node_service_callbacks n !! Z.land can_id 0x780 with
  | Some cb => [Invoke cb can_id data]
  | None => []
  end.

Definition node_calls {OD} (w : World (OD:=OD)) (can_id : Z) (data : payload)
    (r : node_ref) : list event :=
  match w_nodes w !! r with
  | Some n => service_calls n can_id data
  | None => []
  end.

(** Every reference held by a registry names an object of the store. *)
Definition wf_world {OD} (w : World (OD:=OD)) : Prop :=
  Forall (fun net => map_Forall (fun (_ : Z) r => is_Some (w_nodes w !! r))
                                (Network_nodes net))
         (w_nets w).

(** Every registry entry sits under the [id] of its node, as [add_node]
    puts it. *)
Definition keyed_world {OD} (w : World (OD:=OD)) : Prop :=
  Forall (fun net => map_Forall (fun k r => Node_id <$> w_nodes w !! r = Some k)
                                (Network_nodes net))
         (w_nets w).

#[global] Instance wf_world_dec {OD} (w : World (OD:=OD)) : Decision (wf_world w).
Proof. unfold wf_world. apply _. Defined.

#[global] Instance keyed_world_dec {OD} (w : World (OD:=OD)) : Decision (keyed_world w).
Proof. unfold keyed_world. apply _. Defined.

(** A key of a service table that is a function code: bits 7 to 10 only. *)
Definition masked (k : Z) : Prop := Z.land k 0x780 = k.

Definition masked_table {OD} (n : Node (OD:=OD)) : Prop :=
  map_Forall (fun k (_ : callback) => masked k) (Node_service_callbacks n).

(** The frames handed to the bus, oldest first. *)
Definition sends (tr : list event) : list can_Message :=
  omap (fun e => match e with BusSend m => Some m | _ => None end) tr.

(** The frame that the transmit loop builds from a queue entry. *)
Definition frame_of (e : Z * payload) : can_Message :=
  mk_Message false e.1 e.2 false false.


(** A payload that a frame can hold. *)
Definition short (e : Z * payload) : Prop := (length e.2 <= 8)%nat.

Definition short_step (s : step) : Prop :=
  match s with
  | step_send_message _ d => (length d <= 8)%nat
  | _ => True
  end.


#[global] Instance short_dec (e : Z * payload) : Decision (short e).
Proof. unfold short. apply _. Defined.

#[global] Instance short_step_dec (s : step) : Decision (short_step s).
Proof. destruct s; simpl; apply _. Defined.



(** The service table of a fresh [Node] whose reference is [r]. *)
Definition default_services (r : node_ref) : gmap Z callback :=
  <[HEARTBEAT := nmt_on_response r]> (<[SDO_RESPONSE := sdo_on_response r]> ∅).

(** The [Node] object that the constructor builds at reference [r]. *)
Definition fresh_node {OD} (r : node_ref) (node_id : Z) (od : OD) : Node :=
  mk_Node node_id None (default_services r) od
          (mk_sdo_Node node_id od (Some r)) (mk_nmt_Node node_id (Some r)).

(** Every key of every service table of the store is a function code. *)
Definition masked_world {OD} (w : World (OD:=OD)) : Prop :=
  Forall masked_table (w_nodes w).

(** A call that registers a service under a function code, or any call
    that is not [register_service]. *)
Definition masked_op {Desc} (o : op (Desc:=Desc)) : Prop :=
  match o with
  | op_register_service _ cob_id _ => masked cob_id
  | _ => True
  end.

(** The nodes are the same objects with the same fields, and every
    registry has the same content. *)
Definition same_registries {OD} (w w' : World (OD:=OD)) : Prop :=
  w_nodes w' = w_nodes w /\
  Network_nodes <$> w_nets w' = Network_nodes <$> w_nets w.

(** The calls that a broadcast frame causes: those of each registered
    node, in the order in which the registry is iterated. *)
Definition broadcast_calls {OD} (w : World (OD:=OD)) (net : Network)
    (can_id : Z) (data : payload) : list event :=
  dict_values (Network_nodes net) ≫= node_calls w can_id data.

(** ** A concrete network

    A platform whose longest wait is that of a 64-bit POSIX build, a
    resolver that accepts every description, a bus whose [send] never
    fails, and the world of a program that creates a network, adds the
    nodes 5 and 6, and connects. *)
Definition demo_TIMEOUT_MAX : Q := 9223372036.

Definition demo_import (d : option unit) : option unit := Some tt.

Definition demo_send_raises (tr : list event) (msg : can_Message) : bool := false.

Definition demo_ops : list (op (Desc:=unit)) :=
  [op_Network; op_add_node 0 (arg_int 5) None; op_add_node 0 (arg_int 6) None;
   op_connect 0 "can0"].

Definition demo_world : World (OD:=unit) :=
  run_ops demo_TIMEOUT_MAX demo_import demo_send_raises demo_ops empty_world.

(** The network object of [demo_world]. *)
Definition demo_net : Network :=
  default (mk_Network None (mk_MessageDispatcher 0) None ∅ [] (mk_nmt_Node 0 None)
                      None None)
          (w_nets demo_world !! 0%nat).

(** The node that [add_node] builds at reference [r] for address [a] in
    network 0. *)
Definition demo_node (r : node_ref) (a : Z) : Node (OD:=unit) :=
  set_Node_network (Some 0%nat) (fresh_node r a tt).

(** A program that only builds nodes and registers services. *)
Definition node_op {Desc} (o : op (Desc:=Desc)) : Prop :=
  match o with
  | op_Node _ _ | op_register_service _ _ _ => True
  | _ => False
  end.

#[global] Instance masked_dec (k : Z) : Decision (masked k).
Proof. unfold masked. apply _. Defined.

#[global] Instance masked_op_dec {Desc} (o : op (Desc:=Desc)) : Decision (masked_op o).
Proof. destruct o; simpl; apply _. Defined.

(** An effect that is the call of a service callback. *)
Definition is_call (e : event) : bool :=
  match e with
  | Invoke _ _ _ => true
  | _ => false
  end.

(** The world differs by further effects that all satisfy [P]. *)
Definition trace_grows {OD} (P : event -> Prop) (w w' : World (OD:=OD)) : Prop :=
  exists es, w_trace w' = w_trace w ++ es /\ Forall P es.

(** Nothing changed but the trace, which grew by calls of callbacks. *)
Definition routed_only {OD} (w w' : World (OD:=OD)) : Prop :=
  w_nodes w' = w_nodes w /\ w_nets w' = w_nets w /\
  trace_grows (fun e => is_call e = true) w w'.

(** The call [e] with the identifier replaced by [c]. *)
Definition retag (c : Z) (e : event) : event :=
  match e with
  | Invoke cb _ d => Invoke cb c d
  | _ => e
  end.

(** A network as the methods leave it: its dispatcher names the network
    itself; its notifier, when there is one, listens through that
    dispatcher alone; and the bus, the notifier, the stop event and the
    thread are there together ([connect] has run) or not at all. *)
Definition net_ok (s : net_ref) (net : Network) : Prop :=
  dispatcher_network (Network_dispatcher net) = s
  /\ (forall nf, Network_notifier net = Some nf ->
        notifier_listeners nf = [Network_dispatcher net])
  /\ ((Network_bus net = None /\ Network_notifier net = None /\
       Network_stop_event net = None /\ Network_send_thread net = None)
      \/ (is_Some (Network_bus net) /\ is_Some (Network_notifier net) /\
          is_Some (Network_stop_event net) /\ is_Some (Network_send_thread net))).

(** A node as the methods leave it: its two engines have the node as
    parent and carry its [id], and the state-transfer engine shares its
    dictionary. *)
Definition node_ok {OD} (r : node_ref) (n : Node (OD:=OD)) : Prop :=
  sdo_parent (Node_sdo n) = Some r
  /\ nmt_parent (Node_nmt n) = Some r
  /\ sdo_id (Node_sdo n) = Node_id n
  /\ nmt_id (Node_nmt n) = Node_id n
  /\ sdo_object_dictionary (Node_sdo n) = Node_object_dictionary n.

Definition graph_world {OD} (w : World (OD:=OD)) : Prop :=
  (forall s net, w_nets w !! s = Some net -> net_ok s net)
  /\ (forall r n, w_nodes w !! r = Some n -> node_ok r n).

(** The method [m] keeps the property [I] of worlds, however it ends. *)
Definition keeps {OD A} (I : World (OD:=OD) -> Prop) (m : M A) : Prop :=
  forall w, I w -> I (m w).2.

(** A resolver that refuses every description, and the world of a
    program that creates two networks and one node outside both. *)
Definition demo_refuse (d : option unit) : option unit := None.

Definition demo_world2 : World (OD:=unit) :=
  run_ops demo_TIMEOUT_MAX demo_import demo_send_raises [op_Network; op_Network; op_Node 5 None]
          empty_world.

(** ** Properties *)

Section properties.

Context {Desc OD : Type}.
Variable TIMEOUT_MAX : Q.
Variable import_any : option Desc -> option OD.
Variable send_raises : list event -> can_Message -> bool.

Implicit Types (w : World (OD:=OD)) (n : Node (OD:=OD)) (net : Network).
Implicit Types (can_id : Z) (data : list Byte.byte).

Ltac unfold_M :=
  unfold modify_node, modify_net, get_node, set_node, new_node, get_net,
    set_net, new_net, emit, get_trace, raise, pending, mbind, mret,
    M_bind, M_ret in *.

(** *** The trace *)

Lemma add_trace_nil w : add_trace w [] = w.
Proof. destruct w; unfold add_trace; simpl. by rewrite app_nil_r. Qed.

Lemma add_trace_app w es1 es2 :
  add_trace (add_trace w es1) es2 = add_trace w (es1 ++ es2).
Proof. unfold add_trace; simpl. by rewrite app_assoc. Qed.

Lemma node_calls_add_trace w es can_id data r :
  node_calls (add_trace w es) can_id data r = node_calls w can_id data r.
Proof. reflexivity. Qed.

(** *** The two masks *)

Lemma masks_disjoint (x : Z) : Z.land (Z.land x 0x7F) (Z.land x 0x780) = 0.
Proof.
  apply Z.bits_inj'; intros i Hi.
  rewrite !Z.land_spec, Z.bits_0.
  assert (Hc : Z.testbit 0x7F i && Z.testbit 0x780 i = false).
  { rewrite <- Z.land_spec. change (Z.land 0x7F 0x780) with 0. apply Z.bits_0. }
  destruct (Z.testbit x i); simpl; [exact Hc | reflexivity].
Qed.

Lemma masks_cover (x : Z) :
  0 <= x <= 0x7FF -> Z.lor (Z.land x 0x7F) (Z.land x 0x780) = x.
Proof.
  intros Hx. rewrite <- Z.land_lor_distr_r.
  change (Z.lor 0x7F 0x780) with (Z.ones 11).
  rewrite Z.land_ones by lia. apply Z.mod_small.
  change (2 ^ 11) with 2048. lia.
Qed.

Lemma masks_determine (x y : Z) :
  0 <= x <= 0x7FF -> 0 <= y <= 0x7FF ->
  Z.land x 0x7F = Z.land y 0x7F -> Z.land x 0x780 = Z.land y 0x780 -> x = y.
Proof.
  intros Hx Hy H1 H2.
  rewrite <- (masks_cover x Hx), <- (masks_cover y Hy). by rewrite H1, H2.
Qed.

Lemma masks_independent (a f : Z) :
  0 <= a <= 0x7F -> 0 <= f <= 0x780 -> masked f ->
  0 <= Z.lor a f <= 0x7FF /\
  Z.land (Z.lor a f) 0x7F = a /\ Z.land (Z.lor a f) 0x780 = f.
Proof.
  unfold masked. intros Ha Hf Hm.
  assert (Ha' : Z.land a 0x7F = a).
  { change 0x7F with (Z.ones 7). rewrite Z.land_ones by lia.
    apply Z.mod_small. change (2 ^ 7) with 128. lia. }
  assert (Haf : Z.land a 0x780 = 0).
  { rewrite <- Ha'. rewrite <- Z.land_assoc. change (Z.land 0x7F 0x780) with 0.
    apply Z.land_0_r. }
  assert (Hfa : Z.land f 0x7F = 0).
  { rewrite <- Hm. rewrite <- Z.land_assoc. change (Z.land 0x780 0x7F) with 0.
    apply Z.land_0_r. }
  split; [| split].
  - split; [apply Z.lor_nonneg; lia |].
    assert (Hlt : Z.lor a f < 2 ^ 11); [| change (2 ^ 11) with 2048 in Hlt; lia].
    destruct (Z.eq_dec (Z.lor a f) 0) as [-> | Hnz]; [reflexivity |].
    apply Z.log2_lt_pow2; [assert (0 <= Z.lor a f) by (apply Z.lor_nonneg; lia); lia |].
    rewrite Z.log2_lor by lia.
    apply Z.max_lub_lt.
    + destruct (Z.eq_dec a 0) as [-> | ?]; [reflexivity |].
      apply Z.log2_lt_pow2; [lia |]. change (2 ^ 11) with 2048. lia.
    + destruct (Z.eq_dec f 0) as [-> | ?]; [reflexivity |].
      apply Z.log2_lt_pow2; [lia |]. change (2 ^ 11) with 2048. lia.
  - rewrite Z.land_lor_distr_l, Ha', Hfa. apply Z.lor_0_r.
  - rewrite Z.land_lor_distr_l, Haf, Hm. apply Z.lor_0_l.
Qed.

(** *** Node.on_message *)

Lemma on_message_run r n can_id data w :
  w_nodes w !! r = Some n ->
  on_message r can_id data w = (Return tt, add_trace w (service_calls n can_id data)).
Proof.
  intros Hr. unfold on_message, service_calls. unfold_M. rewrite Hr.
  destruct (Node_service_callbacks n !! Z.land can_id 0x780); simpl.
  - reflexivity.
  - by rewrite add_trace_nil.
Qed.

Lemma on_message_node_calls r can_id data w :
  is_Some (w_nodes w !! r) ->
  on_message r can_id data w = (Return tt, add_trace w (node_calls w can_id data r)).
Proof.
  intros [n Hn]. rewrite (on_message_run _ _ _ _ _ Hn).
  unfold node_calls. by rewrite Hn.
Qed.

Lemma for_each_on_message rs can_id data w :
  Forall (fun r => is_Some (w_nodes w !! r)) rs ->
  for_each rs (fun r => on_message r can_id data) w
  = (Return tt, add_trace w (concat (map (node_calls w can_id data) rs))).
Proof.
  intros Hrs. revert w Hrs.
  induction rs as [| r rs IH]; intros w Hrs; simpl.
  - by rewrite add_trace_nil.
  - apply Forall_cons in Hrs as [Hr Hrs].
    unfold mbind, M_bind. rewrite (on_message_node_calls _ _ _ _ Hr).
    rewrite IH by exact Hrs. rewrite add_trace_app.
    reflexivity.
Qed.

(** *** Network.put_message *)

Lemma put_message_unicast self net can_id data w r :
  w_nets w !! self = Some net ->
  Z.land can_id 0x7F <> 0 ->
  Network_nodes net !! Z.land can_id 0x7F = Some r ->
  put_message self can_id data w = on_message r can_id data w.
Proof.
  intros Hnet Hnz Hr. unfold put_message. unfold_M. rewrite Hnet.
  destruct (decide (Z.land can_id 0x7F = 0)); [done |]. by rewrite Hr.
Qed.

Lemma put_message_unknown self net can_id data w :
  w_nets w !! self = Some net ->
  Z.land can_id 0x7F <> 0 ->
  Network_nodes net !! Z.land can_id 0x7F = None ->
  put_message self can_id data w = (Return tt, w).
Proof.
  intros Hnet Hnz Hr. unfold put_message. unfold_M. rewrite Hnet.
  destruct (decide (Z.land can_id 0x7F = 0)); [done |]. by rewrite Hr.
Qed.

Lemma wf_world_values self net w :
  wf_world w -> w_nets w !! self = Some net ->
  Forall (fun r => is_Some (w_nodes w !! r)) (dict_values (Network_nodes net)).
Proof.
  intros Hwf Hnet. unfold wf_world in Hwf.
  rewrite Forall_lookup in Hwf. specialize (Hwf _ _ Hnet).
  apply map_Forall_to_list in Hwf. unfold dict_values.
  apply Forall_fmap. eapply Forall_impl; [exact Hwf |].
  by intros [k r].
Qed.

Lemma put_message_fan_out self net can_id data w :
  wf_world w ->
  w_nets w !! self = Some net ->
  Z.land can_id 0x7F = 0 ->
  put_message self can_id data w
  = (Return tt, add_trace w (broadcast_calls w net can_id data)).
Proof.
  intros Hwf Hnet Hz. unfold put_message. unfold_M. rewrite Hnet.
  destruct (decide (Z.land can_id 0x7F = 0)); [| done].
  rewrite for_each_on_message by (by eapply wf_world_values).
  unfold broadcast_calls. generalize (dict_values (Network_nodes net)).
  intros rs. f_equal. f_equal. induction rs as [| r rs IH]; simpl; [done |].
  by rewrite IH.
Qed.

Lemma elem_of_dict_values {V} (d : gmap Z V) (v : V) :
  v ∈ dict_values d <-> exists k, d !! k = Some v.
Proof.
  unfold dict_values. rewrite list_elem_of_fmap. split.
  - intros [[k v'] [-> Hin]]. exists k. by apply elem_of_map_to_list.
  - intros [k Hk]. exists (k, v). split; [done |]. by apply elem_of_map_to_list.
Qed.

Lemma elem_of_broadcast_calls w net can_id data e :
  e ∈ broadcast_calls w net can_id data <->
  exists k r n cb,
    Network_nodes net !! k = Some r /\ w_nodes w !! r = Some n /\
    Node_service_callbacks n !! Z.land can_id 0x780 = Some cb /\
    e = Invoke cb can_id data.
Proof.
  unfold broadcast_calls. rewrite list_elem_of_bind. split.
  - intros (r & He & Hr). apply elem_of_dict_values in Hr as [k Hk].
    unfold node_calls, service_calls in He.
    destruct (w_nodes w !! r) as [n |] eqn:Hn; [| by apply elem_of_nil in He].
    destruct (Node_service_callbacks n !! Z.land can_id 0x780) as [cb |] eqn:Hcb;
      [| by apply elem_of_nil in He].
    apply list_elem_of_singleton in He. by exists k, r, n, cb.
  - intros (k & r & n & cb & Hk & Hn & Hcb & ->). exists r. split.
    + unfold node_calls, service_calls. rewrite Hn, Hcb. by apply list_elem_of_singleton.
    + apply elem_of_dict_values. by exists k.
Qed.

(** C1: for an 11-bit identifier whose low seven bits are the address of
    a registered node, other than 0, routing is the [on_message] of that
    node alone: the only call made is that of the callback that this node
    holds under [id & 0x780], if any, and the store is unchanged.  The two
    masked parts share no bit, give back the identifier, determine it, and
    every pair of an address and a function code is the decomposition of
    an identifier. *)
Theorem put_message_routes_unicast self net can_id data w r n :
  0 <= can_id <= 0x7FF ->
  w_nets w !! self = Some net ->
  Z.land can_id 0x7F <> 0 ->
  Network_nodes net !! Z.land can_id 0x7F = Some r ->
  w_nodes w !! r = Some n ->
  put_message self can_id data w = on_message r can_id data w
  /\ put_message self can_id data w
     = (Return tt,
        add_trace w match Node_service_callbacks n !! Z.land can_id 0x780 with
                    | Some cb => [Invoke cb can_id data]
                    | None => []
                    end)
  /\ Z.land (Z.land can_id 0x7F) (Z.land can_id 0x780) = 0
  /\ Z.lor (Z.land can_id 0x7F) (Z.land can_id 0x780) = can_id
  /\ (forall id', 0 <= id' <= 0x7FF ->
        Z.land id' 0x7F = Z.land can_id 0x7F ->
        Z.land id' 0x780 = Z.land can_id 0x780 -> id' = can_id)
  /\ (forall a f, 0 <= a <= 0x7F -> 0 <= f <= 0x780 -> masked f ->
        exists id', 0 <= id' <= 0x7FF /\ Z.land id' 0x7F = a /\ Z.land id' 0x780 = f).
Proof.
  intros Hid Hnet Hnz Hr Hn.
  pose proof (put_message_unicast _ _ _ data _ _ Hnet Hnz Hr) as Hput.
  split; [exact Hput |]. split.
  { rewrite Hput. apply (on_message_run _ _ _ _ _ Hn). }
  split; [apply masks_disjoint |]. split; [by apply masks_cover |]. split.
  - intros id' Hid' H1 H2. by apply masks_determine.
  - intros a f Ha Hf Hm. exists (Z.lor a f). by apply masks_independent.
Qed.

(** C2: a frame whose address field is 0 reaches every node of the
    registry: the calls made are those of the callbacks that the
    registered nodes hold under [id & 0x780], one for each registry entry
    whose node has one, and none for a node without; the store is
    unchanged. *)
Theorem put_message_broadcasts self net can_id data w :
  wf_world w ->
  w_nets w !! self = Some net ->
  Z.land can_id 0x7F = 0 ->
  put_message self can_id data w
  = (Return tt, add_trace w (broadcast_calls w net can_id data))
  /\ (forall k r n cb,
        Network_nodes net !! k = Some r -> w_nodes w !! r = Some n ->
        Node_service_callbacks n !! Z.land can_id 0x780 = Some cb ->
        Invoke cb can_id data ∈ broadcast_calls w net can_id data)
  /\ (forall e, e ∈ broadcast_calls w net can_id data ->
        exists k r n cb,
          Network_nodes net !! k = Some r /\ w_nodes w !! r = Some n /\
          Node_service_callbacks n !! Z.land can_id 0x780 = Some cb /\
          e = Invoke cb can_id data)
  /\ length (broadcast_calls w net can_id data)
     = length (filter (fun r => node_calls w can_id data r <> [])
                      (dict_values (Network_nodes net))).
Proof.
  intros Hwf Hnet Hz. split; [by apply put_message_fan_out |].
  split; [| split].
  - intros k r n cb Hk Hn Hcb. apply elem_of_broadcast_calls. by exists k, r, n, cb.
  - intros e He. by apply elem_of_broadcast_calls.
  - unfold broadcast_calls. generalize (dict_values (Network_nodes net)).
    intros rs. induction rs as [| r rs IH]; [done |].
    simpl. rewrite length_app.
    change (list_bind _ _ ?f rs) with (rs ≫= f). rewrite IH, filter_cons.
    assert (Hlen : length (node_calls w can_id data r)
                   = if decide (node_calls w can_id data r <> []) then 1%nat else 0%nat).
    { unfold node_calls, service_calls.
      destruct (w_nodes w !! r) as [n |]; [| by case_decide].
      destruct (Node_service_callbacks n !! Z.land can_id 0x780); by case_decide. }
    rewrite Hlen. by case_decide.
Qed.

(** C3: a frame whose address field is neither 0 nor a key of the
    registry, and a frame for a registered node whose service table has no
    entry under [id & 0x780], are dropped: the call returns, nothing is
    called, and the world is the same.  So does [on_message] alone on a
    node without the entry. *)
Theorem put_message_drops self net can_id data w :
  w_nets w !! self = Some net ->
  Z.land can_id 0x7F <> 0 ->
  Network_nodes net !! Z.land can_id 0x7F = None
  \/ (exists r n, Network_nodes net !! Z.land can_id 0x7F = Some r /\
                  w_nodes w !! r = Some n /\
                  Node_service_callbacks n !! Z.land can_id 0x780 = None) ->
  put_message self can_id data w = (Return tt, w)
  /\ (forall r n, w_nodes w !! r = Some n ->
        Node_service_callbacks n !! Z.land can_id 0x780 = None ->
        on_message r can_id data w = (Return tt, w)).
Proof.
  intros Hnet Hnz Hcase.
  assert (Hon : forall r n, w_nodes w !! r = Some n ->
            Node_service_callbacks n !! Z.land can_id 0x780 = None ->
            on_message r can_id data w = (Return tt, w)).
  { intros r n Hn Hcb. rewrite (on_message_run _ _ _ _ _ Hn).
    unfold service_calls. by rewrite Hcb, add_trace_nil. }
  split; [| exact Hon].
  destruct Hcase as [Hnone | (r & n & Hr & Hn & Hcb)].
  - by eapply put_message_unknown.
  - rewrite (put_message_unicast _ _ _ _ _ _ Hnet Hnz Hr). by eapply Hon.
Qed.

(** *** MessageDispatcher.on_message_received *)

(** C8: the dispatcher hands the identifier and the payload of a frame to
    [put_message] of its network exactly when the frame is neither
    extended, nor an error frame, nor a remote request; otherwise it
    returns and the world is the same. *)
Theorem on_message_received_filters (self : MessageDispatcher) (msg : can_Message) w :
  (id_type msg = false /\ is_error_frame msg = false /\ is_remote_frame msg = false ->
   on_message_received self msg w
   = put_message (dispatcher_network self) (arbitration_id msg) (data msg) w)
  /\ (id_type msg = true \/ is_error_frame msg = true \/ is_remote_frame msg = true ->
      on_message_received self msg w = (Return tt, w)).
Proof.
  unfold on_message_received. split.
  - by intros (-> & -> & ->).
  - intros [-> | [-> | ->]]; [done | |].
    + by rewrite orb_true_r.
    + by rewrite orb_true_r.
Qed.

(** *** Network.send_message and Network.get_message *)

Lemma send_message_run self net can_id data w :
  w_nets w !! self = Some net ->
  send_message self can_id data w
  = (Return tt,
     mk_World (w_nodes w)
              (<[self := set_Network_tx_queue (Network_tx_queue net ++ [(can_id, data)]) net]>
                 (w_nets w))
              (w_trace w)).
Proof.
  intros Hnet. unfold send_message, Queue_put. unfold_M. by rewrite Hnet.
Qed.

(** C9: [send_message] returns, puts the pair at the tail of the queue
    of its network and changes nothing else: the other fields of the
    network, the other networks, the nodes with their service tables and
    the trace are as before. *)
Theorem send_message_appends self net can_id data w :
  w_nets w !! self = Some net ->
  exists w' net',
    send_message self can_id data w = (Return tt, w')
    /\ w_nets w' !! self = Some net'
    /\ Network_tx_queue net' = Network_tx_queue net ++ [(can_id, data)]
    /\ Network_nodes net' = Network_nodes net
    /\ Network_bus net' = Network_bus net
    /\ Network_dispatcher net' = Network_dispatcher net
    /\ Network_notifier net' = Network_notifier net
    /\ Network_nmt net' = Network_nmt net
    /\ Network_stop_event net' = Network_stop_event net
    /\ Network_send_thread net' = Network_send_thread net
    /\ (forall s, s <> self -> w_nets w' !! s = w_nets w !! s)
    /\ length (w_nets w') = length (w_nets w)
    /\ w_nodes w' = w_nodes w
    /\ w_trace w' = w_trace w.
Proof.
  intros Hnet. eexists _, _. split; [by apply send_message_run |]. simpl.
  split; [apply list_lookup_insert_eq; by eapply lookup_lt_Some |].
  repeat (split; [reflexivity |]).
  split; [| by rewrite length_insert].
  intros s Hs. by apply list_lookup_insert_ne.
Qed.

Lemma float_limit_lt (t : Q) : (t < float_limit)%Q -> Qle_bool float_limit t = false.
Proof.
  intros Ht. destruct (Qle_bool float_limit t) eqn:Hle; [| reflexivity].
  apply Qle_bool_iff in Hle. exfalso. by apply (Qlt_not_le _ _ Ht).
Qed.

Lemma one_lt_float_limit : Qle_bool float_limit 1 = false.
Proof. apply float_limit_lt. reflexivity. Qed.

Lemma get_message_run self net (t : Q) w :
  w_nets w !! self = Some net ->
  Qle_bool 0 t = true ->
  Qle_bool float_limit t = false ->
  get_message TIMEOUT_MAX self (timeout_secs t) w
  = match Network_tx_queue net with
    | [] => if Qle_bool t TIMEOUT_MAX then (Return (None, None), w)
            else (Raise OverflowError, w)
    | item :: rest =>
        (Return (Some item.1, Some item.2),
         mk_World (w_nodes w)
                  (<[self := set_Network_tx_queue rest net]> (w_nets w))
                  (w_trace w))
    end.
Proof.
  intros Hnet Ht Hf. unfold get_message, Queue_get. unfold_M.
  rewrite Hnet, Ht, Hf. simpl.
  destruct (Network_tx_queue net); [| done].
  by destruct (Qle_bool t TIMEOUT_MAX).
Qed.

(** C10, as the code has it: with a timeout that is a number, not
    negative and not too large for a [float], [get_message] on a queue
    with entries returns the head and removes it, leaving the rest of the
    world as it is, and so it does without a timeout; on an empty queue,
    when the timeout is moreover not longer than the longest wait of the
    platform, it returns [(None, None)] and changes nothing. *)
Theorem get_message_with_timeout self net (t : Q) w :
  w_nets w !! self = Some net ->
  (0 <= t)%Q ->
  (t < float_limit)%Q ->
  (Network_tx_queue net = [] -> (t <= TIMEOUT_MAX)%Q ->
   get_message TIMEOUT_MAX self (timeout_secs t) w = (Return (None, None), w))
  /\ (forall can_id data rest,
        Network_tx_queue net = (can_id, data) :: rest ->
        let w' := mk_World (w_nodes w)
                           (<[self := set_Network_tx_queue rest net]> (w_nets w))
                           (w_trace w) in
        get_message TIMEOUT_MAX self (timeout_secs t) w = (Return (Some can_id, Some data), w')
        /\ get_message TIMEOUT_MAX self timeout_None w = (Return (Some can_id, Some data), w')).
Proof.
  intros Hnet Ht Hf. apply Qle_bool_iff in Ht. apply float_limit_lt in Hf. split.
  - intros Hq Hmax. apply Qle_bool_iff in Hmax.
    by rewrite (get_message_run _ _ _ _ Hnet Ht Hf), Hq, Hmax.
  - intros can_id data rest Hq. simpl. split.
    + by rewrite (get_message_run _ _ _ _ Hnet Ht Hf), Hq.
    + unfold get_message, Queue_get. unfold_M. by rewrite Hnet, Hq.
Qed.

(** *** Node.__init__ and Node.register_service *)

Lemma modify_node_run r n (f : Node -> Node) w :
  w_nodes w !! r = Some n ->
  modify_node r f w = (Return tt, mk_World (<[r := f n]> (w_nodes w)) (w_nets w) (w_trace w)).
Proof. intros Hr. unfold_M. by rewrite Hr. Qed.

Lemma modify_node_last (l : list Node) n (f : Node -> Node) nets tr :
  modify_node (length l) f (mk_World (l ++ [n]) nets tr)
  = (Return tt, mk_World (l ++ [f n]) nets tr).
Proof.
  erewrite modify_node_run by (simpl; apply list_lookup_middle; reflexivity).
  simpl. rewrite insert_app_r_alt by lia. by rewrite Nat.sub_diag.
Qed.

Lemma register_service_run r n cob_id cb w :
  w_nodes w !! r = Some n ->
  register_service r cob_id cb w
  = (Return tt,
     mk_World (<[r := set_Node_service_callbacks
                        (<[cob_id := cb]> (Node_service_callbacks n)) n]> (w_nodes w))
              (w_nets w) (w_trace w)).
Proof. intros Hr. unfold register_service. by rewrite (modify_node_run _ _ _ _ Hr). Qed.

Lemma Node_init_run node_id d od w :
  import_any d = Some od ->
  Node__init__ import_any node_id d w
  = (Return (length (w_nodes w)),
     mk_World (w_nodes w ++ [fresh_node (length (w_nodes w)) node_id od])
              (w_nets w) (w_trace w)).
Proof.
  intros Hd. unfold Node__init__. rewrite Hd.
  unfold mbind at 1, M_bind at 1. unfold new_node at 1.
  unfold register_service.
  unfold mbind, M_bind. rewrite !modify_node_last. reflexivity.
Qed.

Lemma Node_init_raises node_id d w :
  import_any d = None ->
  Node__init__ import_any node_id d w = (Raise ResolutionError, w).
Proof. intros Hd. unfold Node__init__. by rewrite Hd. Qed.

Lemma default_services_lookup r k :
  default_services r !! k
  = if decide (k = 0x700) then Some (nmt_on_response r)
    else if decide (k = 0x580) then Some (sdo_on_response r)
    else None.
Proof.
  unfold default_services, HEARTBEAT, SDO_RESPONSE.
  rewrite lookup_insert. case_decide; [by rewrite decide_True | rewrite decide_False by done].
  rewrite lookup_insert. case_decide; [by rewrite decide_True | rewrite decide_False by done].
  apply lookup_empty.
Qed.

(** C6: the constructor, when the description resolves, returns a new
    [Node] whose service table has exactly two entries: [0x580] bound to
    the response handler of its own state-transfer engine and [0x700] bound
    to the handler of its own heartbeat engine. *)
Theorem Node_init_services node_id d od w :
  import_any d = Some od ->
  exists w' n,
    let r := length (w_nodes w) in
    Node__init__ import_any node_id d w = (Return r, w')
    /\ w_nodes w' !! r = Some n
    /\ Node_id n = node_id
    /\ Node_service_callbacks n !! 0x580 = Some (sdo_on_response r)
    /\ Node_service_callbacks n !! 0x700 = Some (nmt_on_response r)
    /\ (forall k, k <> 0x580 -> k <> 0x700 -> Node_service_callbacks n !! k = None)
    /\ size (Node_service_callbacks n) = 2%nat
    /\ sdo_parent (Node_sdo n) = Some r
    /\ nmt_parent (Node_nmt n) = Some r.
Proof.
  intros Hd. eexists _, _. simpl.
  split; [by apply Node_init_run |]. simpl.
  split; [apply list_lookup_middle; reflexivity |]. simpl.
  split; [reflexivity |].
  split; [by rewrite default_services_lookup |].
  split; [by rewrite default_services_lookup |].
  split.
  { intros k H1 H2. rewrite default_services_lookup. by rewrite !decide_False. }
  split; [| done].
  unfold default_services. rewrite map_size_insert_None.
  - by rewrite map_size_insert_None, map_size_empty by apply lookup_empty.
  - by rewrite lookup_insert_ne.
Qed.

(** *** What each method leaves alone *)

Lemma same_registries_refl w : same_registries w w.
Proof. by split. Qed.

Lemma same_registries_trans w1 w2 w3 :
  same_registries w1 w2 -> same_registries w2 w3 -> same_registries w1 w3.
Proof. intros [H1 H2] [H3 H4]. split; congruence. Qed.

Lemma same_registries_set_net self net net' w tr :
  w_nets w !! self = Some net ->
  Network_nodes net' = Network_nodes net ->
  same_registries w (mk_World (w_nodes w) (<[self := net']> (w_nets w)) tr).
Proof.
  intros Hnet Heq. split; [done |]. simpl.
  rewrite list_fmap_insert, Heq. apply list_insert_id.
  by rewrite list_lookup_fmap, Hnet.
Qed.

Lemma same_registries_bind {A B} (m : M A) (f : A -> M B) w :
  same_registries w (m w).2 ->
  (forall a w1, same_registries w1 (f a w1).2) ->
  same_registries w ((m ≫= f) w).2.
Proof.
  intros Hm Hf. unfold mbind, M_bind.
  destruct (m w) as [[a | e |] w1]; simpl in *; [| done | done].
  eapply same_registries_trans; [exact Hm | apply Hf].
Qed.

Lemma on_message_same r can_id data w :
  same_registries w (on_message r can_id data w).2.
Proof.
  unfold on_message. unfold_M.
  destruct (w_nodes w !! r) as [n |]; [| apply same_registries_refl].
  destruct (Node_service_callbacks n !! Z.land can_id 0x780); by split.
Qed.

Lemma for_each_same {A} (l : list A) (body : A -> M unit) :
  (forall x w, same_registries w (body x w).2) ->
  forall w, same_registries w (for_each l body w).2.
Proof.
  intros Hbody. induction l as [| x l IH]; intros w; simpl.
  - apply same_registries_refl.
  - apply same_registries_bind; [apply Hbody | intros _; apply IH].
Qed.

Lemma put_message_same self can_id data w :
  same_registries w (put_message self can_id data w).2.
Proof.
  unfold put_message. unfold_M.
  destruct (w_nets w !! self) as [net |]; [| apply same_registries_refl].
  case_decide.
  - apply for_each_same. intros r w1. apply on_message_same.
  - destruct (Network_nodes net !! Z.land can_id 0x7F);
      [apply on_message_same | apply same_registries_refl].
Qed.

Lemma on_message_received_same (disp : MessageDispatcher) msg w :
  same_registries w (on_message_received disp msg w).2.
Proof.
  unfold on_message_received.
  destruct (id_type msg || is_error_frame msg || is_remote_frame msg);
    [apply same_registries_refl | apply put_message_same].
Qed.

Lemma connect_same self channel w :
  same_registries w (connect self channel w).2.
Proof.
  unfold connect. unfold_M.
  destruct (w_nets w !! self) as [net |] eqn:Hnet; [| apply same_registries_refl].
  simpl. by eapply same_registries_set_net.
Qed.

Lemma disconnect_same self w :
  same_registries w (disconnect self w).2.
Proof.
  unfold disconnect. unfold_M.
  destruct (w_nets w !! self) as [net |] eqn:Hnet; [| apply same_registries_refl].
  destruct (Network_notifier net) as [nf |]; [| apply same_registries_refl].
  simpl.
  destruct (Network_stop_event net); simpl.
  - rewrite list_insert_insert_eq.
    destruct (Network_send_thread net); simpl; by eapply same_registries_set_net.
  - by eapply same_registries_set_net.
Qed.

Lemma send_message_same self can_id data w :
  same_registries w (send_message self can_id data w).2.
Proof.
  unfold send_message. unfold_M.
  destruct (w_nets w !! self) as [net |] eqn:Hnet; [| apply same_registries_refl].
  simpl. by eapply same_registries_set_net.
Qed.

Lemma get_message_same self timeout w :
  same_registries w (get_message TIMEOUT_MAX self timeout w).2.
Proof.
  unfold get_message. unfold_M.
  destruct (w_nets w !! self) as [net |] eqn:Hnet; [| apply same_registries_refl].
  destruct (Queue_get TIMEOUT_MAX (Network_tx_queue net) timeout);
    try apply same_registries_refl.
  simpl. by eapply same_registries_set_net.
Qed.

Lemma transmit_same self item w :
  same_registries w (transmit send_raises self item w).2.
Proof.
  destruct item as [[can_id |] data]; [| apply same_registries_refl].
  unfold transmit, new_Message.
  case_decide; [apply same_registries_refl |]. unfold_M.
  destruct (w_nets w !! self) as [net |]; [| apply same_registries_refl].
  destruct (Network_bus net); [| apply same_registries_refl].
  destruct (send_raises _ _); by split.
Qed.

Lemma send_to_can_body_same self w :
  same_registries w (send_to_can_body TIMEOUT_MAX send_raises self w).2.
Proof.
  unfold send_to_can_body.
  apply same_registries_bind; [apply get_message_same |].
  intros item w1. apply transmit_same.
Qed.

Lemma send_to_can_same fuel self w :
  same_registries w (_send_to_can TIMEOUT_MAX send_raises fuel self w).2.
Proof.
  revert w. induction fuel as [| fuel IH]; intros w; simpl.
  - unfold_M. destruct (w_nets w !! self) as [net |]; [| apply same_registries_refl].
    destruct (Network_stop_event net) as [[|] |]; try apply same_registries_refl.
    destruct (Network_bus net); by split.
  - apply same_registries_bind; [unfold_M; by destruct (w_nets w !! self) |].
    intros net w1.
    destruct (Network_stop_event net) as [[|] |]; try apply same_registries_refl.
    + unfold_M. destruct (Network_bus net); by split.
    + apply same_registries_bind; [apply send_to_can_body_same | intros _; apply IH].
Qed.

(** *** Invariants of the store *)

Lemma keyed_world_wf w : keyed_world w -> wf_world w.
Proof.
  unfold keyed_world, wf_world. intros Hk.
  eapply Forall_impl; [exact Hk |]. intros net Hnet. simpl in *.
  eapply map_Forall_impl; [exact Hnet |]. intros k r Hr. simpl in *.
  destruct (w_nodes w !! r); [by eexists | done].
Qed.

Lemma keyed_world_alt w :
  keyed_world w <->
  Forall (map_Forall (fun k r => (Node_id <$> w_nodes w) !! r = Some k))
         (Network_nodes <$> w_nets w).
Proof.
  unfold keyed_world. rewrite Forall_fmap. apply Forall_iff. intros net. simpl.
  split; intros Hnet; (eapply map_Forall_impl; [exact Hnet |]);
    intros k r; simpl; by rewrite list_lookup_fmap.
Qed.

Lemma keyed_world_ext w w' :
  Node_id <$> w_nodes w' = Node_id <$> w_nodes w ->
  Network_nodes <$> w_nets w' = Network_nodes <$> w_nets w ->
  keyed_world w -> keyed_world w'.
Proof. intros H1 H2. rewrite !keyed_world_alt. by rewrite H1, H2. Qed.

Lemma keyed_world_same w w' :
  same_registries w w' -> keyed_world w -> keyed_world w'.
Proof. intros [H1 H2]. apply keyed_world_ext; [by rewrite H1 | done]. Qed.

Lemma keyed_world_new_node w n tr :
  keyed_world w -> keyed_world (mk_World (w_nodes w ++ [n]) (w_nets w) tr).
Proof.
  unfold keyed_world. simpl. intros Hk.
  eapply Forall_impl; [exact Hk |]. intros net Hnet. simpl in *.
  eapply map_Forall_impl; [exact Hnet |]. intros k r Hr. simpl in *.
  destruct (w_nodes w !! r) as [n0 |] eqn:Hn; [| done].
  by rewrite (lookup_app_l_Some _ _ _ _ Hn).
Qed.

Lemma keyed_world_new_net w net tr :
  Network_nodes net = ∅ ->
  keyed_world w -> keyed_world (mk_World (w_nodes w) (w_nets w ++ [net]) tr).
Proof.
  intros He Hk. unfold keyed_world in *. simpl. apply Forall_app. split; [done |].
  apply Forall_singleton. rewrite He. apply map_Forall_empty.
Qed.

Lemma keyed_world_set_node w r n n' tr :
  w_nodes w !! r = Some n -> Node_id n' = Node_id n ->
  keyed_world w -> keyed_world (mk_World (<[r := n']> (w_nodes w)) (w_nets w) tr).
Proof.
  intros Hn Hid. apply keyed_world_ext; [| done]. simpl.
  rewrite list_fmap_insert, Hid. apply list_insert_id.
  by rewrite list_lookup_fmap, Hn.
Qed.

Lemma keyed_world_register w self net r n tr :
  w_nets w !! self = Some net -> w_nodes w !! r = Some n ->
  keyed_world w ->
  keyed_world (mk_World (w_nodes w)
                 (<[self := set_Network_nodes (<[Node_id n := r]> (Network_nodes net)) net]>
                    (w_nets w)) tr).
Proof.
  intros Hnet Hn Hk. unfold keyed_world in *. simpl.
  apply Forall_insert; [done |]. simpl.
  apply map_Forall_insert_2; [by rewrite Hn |].
  rewrite Forall_lookup in Hk. by apply (Hk _ _ Hnet).
Qed.

(** The part of [add_node] that follows the choice of the node. *)
Lemma add_node_tail_run self net r n w :
  w_nets w !! self = Some net -> w_nodes w !! r = Some n ->
  (modify_node r (set_Node_network (Some self));;
   n ← get_node r;
   modify_net self (fun net =>
     set_Network_nodes (<[Node_id n := r]> (Network_nodes net)) net);;
   mret r) w
  = (Return r,
     mk_World (<[r := set_Node_network (Some self) n]> (w_nodes w))
              (<[self := set_Network_nodes (<[Node_id n := r]> (Network_nodes net)) net]>
                 (w_nets w))
              (w_trace w)).
Proof.
  intros Hnet Hn. unfold_M. rewrite Hn. simpl.
  rewrite list_lookup_insert_eq by (by eapply lookup_lt_Some).
  simpl. by rewrite Hnet.
Qed.

Lemma add_node_tail_keyed self r w :
  keyed_world w ->
  keyed_world ((modify_node r (set_Node_network (Some self));;
                n ← get_node r;
                modify_net self (fun net =>
                  set_Network_nodes (<[Node_id n := r]> (Network_nodes net)) net);;
                mret r) w).2.
Proof.
  intros Hk.
  destruct (w_nodes w !! r) as [n |] eqn:Hn; [| unfold_M; by rewrite Hn].
  destruct (w_nets w !! self) as [net |] eqn:Hnet.
  - rewrite (add_node_tail_run _ _ _ _ _ Hnet Hn). simpl.
    pose (w1 := mk_World (<[r := set_Node_network (Some self) n]> (w_nodes w))
                         (w_nets w) (w_trace w)).
    assert (Hk1 : keyed_world w1) by (by eapply keyed_world_set_node).
    assert (Hn1 : w_nodes w1 !! r = Some (set_Node_network (Some self) n)).
    { simpl. apply list_lookup_insert_eq. by eapply lookup_lt_Some. }
    apply (keyed_world_register w1 self net r _ (w_trace w) Hnet Hn1 Hk1).
  - unfold_M. rewrite Hn. simpl.
    rewrite list_lookup_insert_eq by (by eapply lookup_lt_Some).
    simpl. rewrite Hnet. simpl. by eapply keyed_world_set_node.
Qed.

Lemma add_node_keyed self node d w :
  keyed_world w -> keyed_world (add_node import_any self node d w).2.
Proof.
  intros Hk. unfold add_node. destruct node as [a | r].
  - destruct (import_any d) as [od |] eqn:Hd.
    + unfold mbind at 1, M_bind at 1. rewrite (Node_init_run _ _ _ _ Hd).
      apply add_node_tail_keyed. by apply keyed_world_new_node.
    + unfold mbind at 1, M_bind at 1. by rewrite (Node_init_raises _ _ _ Hd).
  - unfold mbind at 1, M_bind at 1. simpl. by apply add_node_tail_keyed.
Qed.

Lemma run_op_keyed o w :
  keyed_world w -> keyed_world (run_op TIMEOUT_MAX import_any send_raises o w).
Proof.
  intros Hk. destruct o; simpl.
  - unfold Network__init__, new_net. simpl. by apply keyed_world_new_net.
  - destruct (import_any object_dictionary) as [od |] eqn:Hd.
    + rewrite (Node_init_run _ _ _ _ Hd). by apply keyed_world_new_node.
    + by rewrite (Node_init_raises _ _ _ Hd).
  - destruct (w_nodes w !! r) as [n |] eqn:Hn.
    + rewrite (register_service_run _ _ _ _ _ Hn). simpl.
      by eapply keyed_world_set_node.
    + unfold register_service. unfold_M. by rewrite Hn.
  - eapply keyed_world_same; [apply on_message_same | done].
  - eapply keyed_world_same; [apply connect_same | done].
  - eapply keyed_world_same; [apply disconnect_same | done].
  - by apply add_node_keyed.
  - eapply keyed_world_same; [apply send_message_same | done].
  - eapply keyed_world_same; [apply get_message_same | done].
  - eapply keyed_world_same; [apply put_message_same | done].
  - eapply keyed_world_same; [apply send_to_can_same | done].
  - eapply keyed_world_same; [apply on_message_received_same | done].
Qed.

Lemma run_ops_keyed ops w :
  keyed_world w -> keyed_world (run_ops TIMEOUT_MAX import_any send_raises ops w).
Proof.
  revert w. induction ops as [| o ops IH]; intros w Hk; [done |].
  simpl. apply IH. by apply run_op_keyed.
Qed.

(** In every world that a program reaches, the registries hold nodes of
    the store under their own [id]. *)
Lemma reachable_keyed w :
  reachable TIMEOUT_MAX import_any send_raises w -> keyed_world w /\ wf_world w.
Proof.
  intros [ops ->].
  assert (Hk : keyed_world (run_ops TIMEOUT_MAX import_any send_raises ops empty_world)).
  { apply run_ops_keyed. unfold keyed_world. simpl. constructor. }
  split; [done | by apply keyed_world_wf].
Qed.

(** *** Network.add_node *)

Lemma put_message_calls self net can_id data w :
  wf_world w ->
  w_nets w !! self = Some net ->
  exists es,
    put_message self can_id data w = (Return tt, add_trace w es)
    /\ forall e, e ∈ es ->
         exists k r n cb,
           Network_nodes net !! k = Some r /\ w_nodes w !! r = Some n /\
           Node_service_callbacks n !! Z.land can_id 0x780 = Some cb /\
           e = Invoke cb can_id data.
Proof.
  intros Hwf Hnet.
  destruct (decide (Z.land can_id 0x7F = 0)) as [Hz | Hnz].
  { eexists. split; [by apply put_message_fan_out |].
    intros e He. by apply elem_of_broadcast_calls. }
  destruct (Network_nodes net !! Z.land can_id 0x7F) as [r |] eqn:Hr.
  - assert (Hsome : is_Some (w_nodes w !! r)).
    { unfold wf_world in Hwf. rewrite Forall_lookup in Hwf.
      by apply (Hwf _ _ Hnet _ _ Hr). }
    destruct Hsome as [n Hn].
    exists (service_calls n can_id data). split.
    + rewrite (put_message_unicast _ _ _ _ _ _ Hnet Hnz Hr).
      by apply on_message_run.
    + intros e He. unfold service_calls in He.
      destruct (Node_service_callbacks n !! Z.land can_id 0x780) as [cb |] eqn:Hcb;
        [| by apply elem_of_nil in He].
      apply list_elem_of_singleton in He.
      by exists (Z.land can_id 0x7F), r, n, cb.
  - exists []. split.
    + rewrite add_trace_nil. by eapply put_message_unknown.
    + intros e He. by apply elem_of_nil in He.
Qed.

Lemma add_node_int_run self net a d od w :
  w_nets w !! self = Some net ->
  import_any d = Some od ->
  add_node import_any self (arg_int a) d w
  = (Return (length (w_nodes w)),
     mk_World (w_nodes w ++ [set_Node_network (Some self)
                               (fresh_node (length (w_nodes w)) a od)])
              (<[self := set_Network_nodes
                           (<[a := length (w_nodes w)]> (Network_nodes net)) net]>
                 (w_nets w))
              (w_trace w)).
Proof.
  intros Hnet Hd. unfold add_node.
  unfold mbind at 1, M_bind at 1. rewrite (Node_init_run _ _ _ _ Hd).
  erewrite add_node_tail_run;
    [| simpl; exact Hnet | simpl; apply list_lookup_middle; reflexivity].
  simpl. rewrite insert_app_r_alt by lia. by rewrite Nat.sub_diag.
Qed.

(** C5: [add_node] with an integer [a] and a description that resolves
    builds a new [Node] with [id] [a] and that dictionary, points its
    [network] at the network, puts it in the registry under [a] in place of
    whatever was there, leaves the other entries and the other nodes as
    they are, and returns it.  From then on a frame addressed to [a] (a
    node address, not the broadcast address 0) is handled by the new node
    alone.  When the registry held nodes under their own [id], as
    [add_node] puts them, a node that was registered under [a] before is
    in the registry no more, and no frame of any address reaches its
    service table. *)
Theorem add_node_registers self net a d od w :
  w_nets w !! self = Some net ->
  import_any d = Some od ->
  exists w' net' node,
    let r := length (w_nodes w) in
    add_node import_any self (arg_int a) d w = (Return r, w')
    /\ w_nodes w' = w_nodes w ++ [node]
    /\ w_nodes w' !! r = Some node
    /\ Node_id node = a
    /\ Node_object_dictionary node = od
    /\ Node_network node = Some self
    /\ Node_service_callbacks node = default_services r
    /\ w_nets w' !! self = Some net'
    /\ Network_nodes net' = <[a := r]> (Network_nodes net)
    /\ (forall s, s <> self -> w_nets w' !! s = w_nets w !! s)
    /\ w_trace w' = w_trace w
    /\ (forall can_id data, a <> 0 -> Z.land can_id 0x7F = a ->
          put_message self can_id data w' = on_message r can_id data w'
          /\ put_message self can_id data w'
             = (Return tt, add_trace w' (service_calls node can_id data)))
    /\ (keyed_world w ->
        forall prior, Network_nodes net !! a = Some prior ->
          prior <> r
          /\ (forall k, Network_nodes net' !! k <> Some prior)
          /\ (forall can_id data, exists es,
                put_message self can_id data w' = (Return tt, add_trace w' es)
                /\ forall e, e ∈ es ->
                     exists k r' n' cb,
                       Network_nodes net' !! k = Some r' /\ r' <> prior /\
                       w_nodes w' !! r' = Some n' /\
                       Node_service_callbacks n' !! Z.land can_id 0x780 = Some cb /\
                       e = Invoke cb can_id data)).
Proof.
  intros Hnet Hd.
  pose proof (add_node_int_run _ _ a _ _ _ Hnet Hd) as Hrun.
  eexists _, _, _. simpl. split; [exact Hrun |]. simpl.
  assert (Hlt : (self < length (w_nets w))%nat) by (by eapply lookup_lt_Some).
  assert (Hnode : forall tl : list Node,
            (w_nodes w ++ tl) !! length (w_nodes w) = tl !! 0%nat).
  { intros tl. rewrite lookup_app_r by lia. by rewrite Nat.sub_diag. }
  split; [reflexivity |]. split; [by rewrite Hnode |].
  do 4 (split; [reflexivity |]).
  split; [by apply list_lookup_insert_eq |]. split; [reflexivity |].
  split; [intros s Hs; by apply list_lookup_insert_ne |].
  split; [reflexivity |].
  split.
  - intros can_id data Ha Hland.
    assert (Hput : forall w1,
      w_nets w1 !! self
      = Some (set_Network_nodes (<[a := length (w_nodes w)]> (Network_nodes net)) net) ->
      put_message self can_id data w1 = on_message (length (w_nodes w)) can_id data w1).
    { intros w1 Hw1. eapply put_message_unicast; [exact Hw1 | by rewrite Hland |].
      simpl. rewrite Hland. apply lookup_insert_eq. }
    split.
    + apply Hput. simpl. by apply list_lookup_insert_eq.
    + rewrite Hput by (simpl; by apply list_lookup_insert_eq).
      apply on_message_run. simpl. by rewrite Hnode.
  - intros Hk prior Hprior.
    pose proof (add_node_keyed self (arg_int a) d w Hk) as Hk'.
    rewrite Hrun in Hk'. simpl in Hk'.
    assert (Hpk : Node_id <$> w_nodes w !! prior = Some a).
    { unfold keyed_world in Hk. rewrite Forall_lookup in Hk.
      by apply (Hk _ _ Hnet _ _ Hprior). }
    assert (Hne : prior <> length (w_nodes w)).
    { intros ->. by rewrite lookup_ge_None_2 in Hpk by lia. }
    assert (Hgone : forall k,
              <[a := length (w_nodes w)]> (Network_nodes net) !! k <> Some prior).
    { intros k. destruct (decide (a = k)) as [<- | Hak].
      - rewrite lookup_insert_eq. congruence.
      - rewrite lookup_insert_ne by done. intros Hk2.
        unfold keyed_world in Hk. rewrite Forall_lookup in Hk.
        pose proof (Hk _ _ Hnet _ _ Hk2) as Hpk2. simpl in Hpk2. congruence. }
    split; [exact Hne |]. split; [exact Hgone |].
    intros can_id data.
    destruct (put_message_calls self
                (set_Network_nodes (<[a := length (w_nodes w)]> (Network_nodes net)) net)
                can_id data _ (keyed_world_wf _ Hk'))
      as (es & Hes & Hin).
    { simpl. by apply list_lookup_insert_eq. }
    exists es. split; [exact Hes |].
    intros e He. destruct (Hin e He) as (k & r' & n' & cb & Hr' & Hn' & Hcb & ->).
    exists k, r', n', cb. repeat split; try done.
    intros ->. by apply (Hgone k).
Qed.

(** *** The keys of the service tables *)

Lemma masked_world_alt w :
  masked_world w <->
  Forall (map_Forall (fun k (_ : callback) => masked k))
         (Node_service_callbacks <$> w_nodes w).
Proof. unfold masked_world, masked_table. by rewrite Forall_fmap. Qed.

Lemma masked_world_ext w w' :
  Node_service_callbacks <$> w_nodes w' = Node_service_callbacks <$> w_nodes w ->
  masked_world w -> masked_world w'.
Proof. intros H. rewrite !masked_world_alt. by rewrite H. Qed.

Lemma masked_world_same w w' :
  same_registries w w' -> masked_world w -> masked_world w'.
Proof. intros [H1 _]. apply masked_world_ext. by rewrite H1. Qed.

Lemma default_services_masked r :
  map_Forall (fun k (_ : callback) => masked k) (default_services r).
Proof.
  unfold default_services. apply map_Forall_insert_2; [reflexivity |].
  apply map_Forall_insert_2; [reflexivity |]. apply map_Forall_empty.
Qed.

Lemma masked_world_new_node w r node_id od tr :
  masked_world w ->
  masked_world (mk_World (w_nodes w ++ [fresh_node r node_id od]) (w_nets w) tr).
Proof.
  intros Hm. unfold masked_world in *. simpl. apply Forall_app. split; [done |].
  apply Forall_singleton. apply default_services_masked.
Qed.

Lemma add_node_tail_tables self r w :
  Node_service_callbacks <$>
    w_nodes ((modify_node r (set_Node_network (Some self));;
              n ← get_node r;
              modify_net self (fun net =>
                set_Network_nodes (<[Node_id n := r]> (Network_nodes net)) net);;
              mret r) w).2
  = Node_service_callbacks <$> w_nodes w.
Proof.
  destruct (w_nodes w !! r) as [n |] eqn:Hn; [| unfold_M; by rewrite Hn].
  assert (Heq : Node_service_callbacks <$> <[r := set_Node_network (Some self) n]> (w_nodes w)
                = Node_service_callbacks <$> w_nodes w).
  { rewrite list_fmap_insert. apply list_insert_id. by rewrite list_lookup_fmap, Hn. }
  destruct (w_nets w !! self) as [net |] eqn:Hnet.
  - by rewrite (add_node_tail_run _ _ _ _ _ Hnet Hn).
  - unfold_M. rewrite Hn. simpl.
    rewrite list_lookup_insert_eq by (by eapply lookup_lt_Some).
    simpl. by rewrite Hnet.
Qed.

Lemma add_node_masked self node d w :
  masked_world w -> masked_world (add_node import_any self node d w).2.
Proof.
  intros Hm. unfold add_node. destruct node as [a | r].
  - destruct (import_any d) as [od |] eqn:Hd.
    + unfold mbind at 1, M_bind at 1. rewrite (Node_init_run _ _ _ _ Hd).
      eapply masked_world_ext; [apply add_node_tail_tables |].
      by apply masked_world_new_node.
    + unfold mbind at 1, M_bind at 1. by rewrite (Node_init_raises _ _ _ Hd).
  - unfold mbind at 1, M_bind at 1. simpl.
    eapply masked_world_ext; [apply add_node_tail_tables | done].
Qed.

Lemma run_op_masked o w :
  masked_op o -> masked_world w ->
  masked_world (run_op TIMEOUT_MAX import_any send_raises o w).
Proof.
  intros Ho Hm. destruct o; simpl.
  - done.
  - destruct (import_any object_dictionary) as [od |] eqn:Hd.
    + rewrite (Node_init_run _ _ _ _ Hd). by apply masked_world_new_node.
    + by rewrite (Node_init_raises _ _ _ Hd).
  - destruct (w_nodes w !! r) as [n |] eqn:Hn.
    + rewrite (register_service_run _ _ _ _ _ Hn).
      unfold masked_world in *. simpl. apply Forall_insert; [done |].
      unfold masked_table. simpl. apply map_Forall_insert_2; [exact Ho |].
      rewrite Forall_lookup in Hm. by apply (Hm _ _ Hn).
    + unfold register_service. unfold_M. by rewrite Hn.
  - eapply masked_world_same; [apply on_message_same | done].
  - eapply masked_world_same; [apply connect_same | done].
  - eapply masked_world_same; [apply disconnect_same | done].
  - by apply add_node_masked.
  - eapply masked_world_same; [apply send_message_same | done].
  - eapply masked_world_same; [apply get_message_same | done].
  - eapply masked_world_same; [apply put_message_same | done].
  - eapply masked_world_same; [apply send_to_can_same | done].
  - eapply masked_world_same; [apply on_message_received_same | done].
Qed.

Lemma run_ops_masked ops w :
  Forall masked_op ops -> masked_world w ->
  masked_world (run_ops TIMEOUT_MAX import_any send_raises ops w).
Proof.
  revert w. induction ops as [| o ops IH]; intros w Hops Hm; [done |].
  apply Forall_cons in Hops as [Ho Hops].
  simpl. apply IH; [done |]. by apply run_op_masked.
Qed.

(** C7, as the code has it: [register_service] stores the code it is
    given, unmasked.  Whatever a node's service table holds, also keys that
    are no function codes: the table holds one callback for a key, and a
    registration replaces the callback of its key and of no other key, on
    this node only.  And when the world was reached by a program whose
    [register_service] calls all pass function codes, every key of the
    table is a function code. *)
Theorem service_table_keys w r n :
  w_nodes w !! r = Some n ->
  (forall k cb1 cb2,
     Node_service_callbacks n !! k = Some cb1 ->
     Node_service_callbacks n !! k = Some cb2 -> cb1 = cb2)
  /\ (forall k cb, exists w' n',
        register_service r k cb w = (Return tt, w')
        /\ w_nodes w' !! r = Some n'
        /\ Node_service_callbacks n' !! k = Some cb
        /\ (forall k', k' <> k ->
              Node_service_callbacks n' !! k' = Node_service_callbacks n !! k')
        /\ (forall r', r' <> r -> w_nodes w' !! r' = w_nodes w !! r'))
  /\ (forall ops,
        Forall masked_op ops ->
        w = run_ops TIMEOUT_MAX import_any send_raises ops empty_world ->
        forall k cb, Node_service_callbacks n !! k = Some cb -> Z.land k 0x780 = k).
Proof.
  intros Hn. split; [| split].
  - intros k cb1 cb2 H1 H2. congruence.
  - intros k cb. eexists _, _.
    split; [by apply register_service_run |]. simpl.
    split; [apply list_lookup_insert_eq; by eapply lookup_lt_Some |]. simpl.
    split; [apply lookup_insert_eq |].
    split; [intros k' Hk'; by apply lookup_insert_ne |].
    intros r' Hr'. by apply list_lookup_insert_ne.
  - intros ops Hops -> k cb Hk.
    assert (Hm : masked_world (run_ops TIMEOUT_MAX import_any send_raises ops empty_world)).
    { apply run_ops_masked; [done |]. unfold masked_world. simpl. constructor. }
    unfold masked_world in Hm. rewrite Forall_lookup in Hm.
    by apply (Hm _ _ Hn k cb).
Qed.

(** *** The outbound queue and the transmit loop *)

Lemma sends_app tr1 tr2 : sends (tr1 ++ tr2) = sends tr1 ++ sends tr2.
Proof. apply omap_app. Qed.



Lemma transmit_run self net b can_id (d : option (list Byte.byte)) w :
  w_nets w !! self = Some net ->
  Network_bus net = Some b ->
  (length (default [] d) <= 8)%nat ->
  transmit send_raises self (Some can_id, d) w
  = (Return tt,
     add_trace w (BusSend (mk_Message false can_id (default [] d) false false)
                    :: if send_raises (w_trace w)
                                      (mk_Message false can_id (default [] d) false false)
                       then [LogError (mk_Message false can_id (default [] d) false false)]
                       else [])).
Proof.
  intros Hnet Hbus Hlen. unfold transmit, new_Message, add_trace.
  rewrite decide_False by lia. unfold_M. rewrite Hnet. simpl.
  rewrite Hbus. destruct (send_raises (w_trace w) _); simpl.
  - by rewrite <- app_assoc.
  - reflexivity.
Qed.

Lemma transmit_refuses self can_id (d : option (list Byte.byte)) w :
  (8 < length (default [] d))%nat ->
  transmit send_raises self (Some can_id, d) w = (Raise MessageError, w).
Proof.
  intros Hlen. unfold transmit, new_Message. by rewrite decide_True.
Qed.

Lemma sends_transmitted (tr : list event) (m : can_Message) :
  sends (BusSend m :: if send_raises tr m then [LogError m] else []) = [m].
Proof. by destruct (send_raises tr m). Qed.

Lemma send_to_can_body_run self net b w :
  w_nets w !! self = Some net ->
  Network_bus net = Some b ->
  Qle_bool 1 TIMEOUT_MAX = true ->
  Forall short (Network_tx_queue net) ->
  send_to_can_body TIMEOUT_MAX send_raises self w
  = match Network_tx_queue net with
    | [] => (Return tt, w)
    | e :: rest =>
        (Return tt,
         mk_World (w_nodes w)
                  (<[self := set_Network_tx_queue rest net]> (w_nets w))
                  (w_trace w ++ BusSend (frame_of e)
                     :: if send_raises (w_trace w) (frame_of e)
                        then [LogError (frame_of e)] else []))
    end.
Proof.
  intros Hnet Hbus Hmax Hshort. unfold send_to_can_body.
  unfold mbind at 1, M_bind at 1.
  rewrite (get_message_run _ _ 1 _ Hnet) by (reflexivity || apply one_lt_float_limit).
  destruct (Network_tx_queue net) as [| [c d] rest]; [by rewrite Hmax |].
  apply Forall_cons in Hshort as [Hc _].
  erewrite transmit_run;
    [| simpl; apply list_lookup_insert_eq; by eapply lookup_lt_Some | exact Hbus
     | exact Hc].
  reflexivity.
Qed.




Lemma iterations_drain self b (count : nat) :
  Qle_bool 1 TIMEOUT_MAX = true ->
  forall net w,
  w_nets w !! self = Some net ->
  Network_bus net = Some b ->
  Forall short (Network_tx_queue net) ->
  exists w' net',
    for_each (replicate count tt) (fun _ => send_to_can_body TIMEOUT_MAX send_raises self) w
    = (Return tt, w')
    /\ w_nets w' !! self = Some net'
    /\ Network_bus net' = Some b
    /\ Network_stop_event net' = Network_stop_event net
    /\ Network_tx_queue net' = drop count (Network_tx_queue net)
    /\ sends (w_trace w')
       = sends (w_trace w) ++ (frame_of <$> take count (Network_tx_queue net)).
Proof.
  intros Hmax. induction count as [| count IH]; intros net w Hnet Hbus Hq.
  { exists w, net. simpl. by rewrite app_nil_r. }
  simpl. unfold mbind, M_bind.
  rewrite (send_to_can_body_run _ _ _ _ Hnet Hbus Hmax Hq).
  destruct (Network_tx_queue net) as [| e rest] eqn:Hqe.
  - destruct (IH net w Hnet Hbus) as (w' & net' & Hrun & Hnet' & Hb & Hst & Hq' & Hs);
      [by rewrite Hqe |].
    exists w', net'. rewrite Hrun. repeat split; try done.
    + by rewrite Hq', Hqe, drop_nil.
    + by rewrite Hs, Hqe, take_nil.
  - apply Forall_cons in Hq as [He Hrest].
    match goal with |- context [for_each _ _ ?w1] =>
      destruct (IH (set_Network_tx_queue rest net) w1)
        as (w' & net' & Hrun & Hnet' & Hb & Hst & Hq' & Hs);
        [simpl; apply list_lookup_insert_eq; by eapply lookup_lt_Some | exact Hbus
         | exact Hrest |]
    end.
    exists w', net'. rewrite Hrun. repeat split; try done.
    rewrite Hs. simpl. rewrite sends_app, sends_transmitted.
    by rewrite <- app_assoc.
Qed.

(** While the stop event is clear and the payloads fit, the transmit loop
    is its body over and over, and it does not return. *)
Lemma send_to_can_iterates self b fuel :
  Qle_bool 1 TIMEOUT_MAX = true ->
  forall net w,
  w_nets w !! self = Some net ->
  Network_bus net = Some b ->
  Network_stop_event net = Some false ->
  Forall short (Network_tx_queue net) ->
  _send_to_can TIMEOUT_MAX send_raises fuel self w
  = (for_each (replicate fuel tt) (fun _ => send_to_can_body TIMEOUT_MAX send_raises self);;
     pending) w.
Proof.
  intros Hmax.
  induction fuel as [| fuel IH]; intros net w Hnet Hbus Hstop Hq; simpl.
  - unfold_M. by rewrite Hnet, Hstop.
  - unfold mbind at 1, M_bind at 1. unfold get_net at 1. rewrite Hnet, Hstop.
    unfold mbind, M_bind.
    destruct (iterations_drain self b 1 Hmax net w Hnet Hbus Hq)
      as (w1 & net1 & Hrun & Hnet1 & Hbus1 & Hstop1 & Hq1 & _).
    simpl in Hrun. unfold mbind, M_bind in Hrun.
    destruct (send_to_can_body TIMEOUT_MAX send_raises self w) as [[[] | e |] w2];
      simpl in Hrun; try discriminate.
    injection Hrun as ->.
    rewrite (IH net1 w1 Hnet1 Hbus1); [reflexivity | congruence |].
    rewrite Hq1. by apply Forall_drop.
Qed.

Lemma send_to_can_drains self b fuel net w :
  Qle_bool 1 TIMEOUT_MAX = true ->
  w_nets w !! self = Some net ->
  Network_bus net = Some b ->
  Network_stop_event net = Some false ->
  Forall short (Network_tx_queue net) ->
  (length (Network_tx_queue net) <= fuel)%nat ->
  exists w' net',
    _send_to_can TIMEOUT_MAX send_raises fuel self w = (Pending, w')
    /\ w_nets w' !! self = Some net'
    /\ Network_tx_queue net' = []
    /\ sends (w_trace w') = sends (w_trace w) ++ (frame_of <$> Network_tx_queue net).
Proof.
  intros Hmax Hnet Hbus Hstop Hq Hfuel.
  destruct (iterations_drain self b fuel Hmax net w Hnet Hbus Hq)
    as (w' & net' & Hrun & Hnet' & _ & _ & Hq' & Hs).
  exists w', net'.
  rewrite (send_to_can_iterates self b fuel Hmax net w Hnet Hbus Hstop Hq).
  unfold mbind, M_bind. rewrite Hrun. split; [reflexivity |]. split; [done |].
  split; [by rewrite Hq', drop_ge |]. by rewrite Hs, take_ge.
Qed.


(** *** The mapping interface of Network *)

Lemma getitem_run self net k w :
  w_nets w !! self = Some net ->
  Network__getitem__ self k w
  = match Network_nodes net !! k with
    | Some r => (Return r, w)
    | None => (Raise KeyError, w)
    end.
Proof.
  intros Hnet. unfold Network__getitem__. unfold_M. rewrite Hnet.
  by destruct (Network_nodes net !! k).
Qed.

Lemma contains_run self net k w :
  w_nets w !! self = Some net ->
  Network__contains__ self k w
  = (Return (bool_decide (is_Some (Network_nodes net !! k))), w).
Proof. intros Hnet. unfold Network__contains__. unfold_M. by rewrite Hnet. Qed.

Lemma len_run self net w :
  w_nets w !! self = Some net ->
  Network__len__ self w = (Return (size (Network_nodes net)), w).
Proof. intros Hnet. unfold Network__len__. unfold_M. by rewrite Hnet. Qed.

(** X1: iterating a network gives each registered address once, as many
    addresses as [len] counts, and exactly those that [in] accepts and
    that indexing finds; none of the four changes anything. *)
Theorem Network_iter_agrees self net w :
  w_nets w !! self = Some net ->
  exists keys,
    Network__iter__ self w = (Return keys, w)
    /\ Network__len__ self w = (Return (length keys), w)
    /\ NoDup keys
    /\ (forall k, k ∈ keys <-> Network__contains__ self k w = (Return true, w))
    /\ (forall k, k ∈ keys <-> exists r, Network__getitem__ self k w = (Return r, w))
    /\ (forall k, k ∉ keys <-> Network__getitem__ self k w = (Raise KeyError, w)).
Proof.
  intros Hnet. exists (map_to_list (Network_nodes net)).*1.
  assert (Hin : forall k, k ∈ (map_to_list (Network_nodes net)).*1
                          <-> is_Some (Network_nodes net !! k)).
  { intros k. rewrite list_elem_of_fmap. split.
    - intros [[k' r] [-> Hkr]]. apply elem_of_map_to_list in Hkr. by eexists.
    - intros [r Hr]. exists (k, r). split; [done |]. by apply elem_of_map_to_list. }
  split; [unfold Network__iter__; unfold_M; by rewrite Hnet |].
  split; [by rewrite (len_run _ _ _ Hnet), length_fmap, length_map_to_list |].
  split; [apply NoDup_fst_map_to_list |].
  split; [| split].
  - intros k. rewrite Hin, (contains_run _ _ _ _ Hnet). split.
    + intros Hs. by rewrite bool_decide_eq_true_2.
    + intros Heq. injection Heq as Heq. by apply bool_decide_eq_true_1 in Heq.
  - intros k. rewrite Hin, (getitem_run _ _ _ _ Hnet). split.
    + intros [r Hr]. exists r. by rewrite Hr.
    + intros [r Hr]. destruct (Network_nodes net !! k); [by eexists | discriminate].
  - intros k. rewrite Hin, (getitem_run _ _ _ _ Hnet). split.
    + intros Hs. destruct (Network_nodes net !! k) as [r |]; [| done].
      exfalso. apply Hs. by eexists.
    + intros Heq [r Hr]. rewrite Hr in Heq. discriminate.
Qed.

(** X2: after [add_node] with an integer [a], indexing the network by [a]
    gives the node that was returned and [a] is in the network; every
    other address is found or missing as before; the length grows by one
    when [a] was free and stays when it was taken. *)
Theorem add_node_then_lookup self net a d od w :
  w_nets w !! self = Some net ->
  import_any d = Some od ->
  exists r w',
    add_node import_any self (arg_int a) d w = (Return r, w')
    /\ Network__getitem__ self a w' = (Return r, w')
    /\ Network__contains__ self a w' = (Return true, w')
    /\ (forall k, k <> a ->
          (Network__getitem__ self k w').1 = (Network__getitem__ self k w).1
          /\ (Network__contains__ self k w').1 = (Network__contains__ self k w).1)
    /\ (Network_nodes net !! a = None ->
          Network__len__ self w' = (Return (S (size (Network_nodes net))), w'))
    /\ (is_Some (Network_nodes net !! a) ->
          Network__len__ self w' = (Return (size (Network_nodes net)), w')).
Proof.
  intros Hnet Hd. eexists _, _.
  split; [by apply add_node_int_run |].
  assert (Hlt : (self < length (w_nets w))%nat) by (by eapply lookup_lt_Some).
  match goal with |- context [Network__getitem__ self a ?w1] =>
    assert (Hnet' : w_nets w1 !! self
                    = Some (set_Network_nodes
                              (<[a := length (w_nodes w)]> (Network_nodes net)) net))
      by (simpl; by apply list_lookup_insert_eq)
  end.
  split; [rewrite (getitem_run _ _ _ _ Hnet'); simpl; by rewrite lookup_insert_eq |].
  split.
  { rewrite (contains_run _ _ _ _ Hnet'). simpl. rewrite lookup_insert_eq.
    by rewrite bool_decide_eq_true_2. }
  split.
  { intros k Hk. rewrite !(getitem_run _ _ _ _ Hnet'), !(contains_run _ _ _ _ Hnet').
    rewrite (getitem_run _ _ _ _ Hnet), (contains_run _ _ _ _ Hnet). simpl.
    rewrite lookup_insert_ne by done.
    by destruct (Network_nodes net !! k). }
  split.
  - intros Hfree. rewrite (len_run _ _ _ Hnet'). simpl.
    by rewrite map_size_insert_None.
  - intros Htaken. rewrite (len_run _ _ _ Hnet'). simpl.
    by rewrite map_size_insert_Some.
Qed.

(** *** Network.add_node with a Node object, and with a bad description *)

Lemma add_node_object_run self net r n d w :
  w_nets w !! self = Some net ->
  w_nodes w !! r = Some n ->
  add_node import_any self (arg_Node r) d w
  = (Return r,
     mk_World (<[r := set_Node_network (Some self) n]> (w_nodes w))
              (<[self := set_Network_nodes (<[Node_id n := r]> (Network_nodes net)) net]>
                 (w_nets w))
              (w_trace w)).
Proof.
  intros Hnet Hn. unfold add_node.
  unfold mbind at 1, M_bind at 1. simpl.
  by apply add_node_tail_run.
Qed.

(** X3: [add_node] with a [Node] object registers that very object under
    its [id] and returns it: no node is built, the description is not
    looked at (whatever the resolver would do with it), the object's
    [network] now names this network, and doing it again changes
    nothing. *)
Theorem add_node_object self net r n d w :
  w_nets w !! self = Some net ->
  w_nodes w !! r = Some n ->
  exists w',
    add_node import_any self (arg_Node r) d w = (Return r, w')
    /\ w_nodes w' = <[r := set_Node_network (Some self) n]> (w_nodes w)
    /\ length (w_nodes w') = length (w_nodes w)
    /\ w_nets w'
       = <[self := set_Network_nodes (<[Node_id n := r]> (Network_nodes net)) net]>
           (w_nets w)
    /\ w_trace w' = w_trace w
    /\ add_node import_any self (arg_Node r) d w' = (Return r, w').
Proof.
  intros Hnet Hn. eexists.
  split; [by apply add_node_object_run |]. simpl.
  split; [reflexivity |]. split; [by rewrite length_insert |].
  split; [reflexivity |]. split; [reflexivity |].
  erewrite add_node_object_run;
    [| simpl; apply list_lookup_insert_eq; by eapply lookup_lt_Some
     | simpl; apply list_lookup_insert_eq; by eapply lookup_lt_Some].
  simpl. rewrite !list_insert_insert_eq. by rewrite insert_insert_eq.
Qed.

(** With a description that the resolver refuses, the constructor and
    [add_node] raise and the world is as before. *)
Lemma add_node_unresolved self a d w :
  import_any d = None ->
  Node__init__ import_any a d w = (Raise ResolutionError, w)
  /\ add_node import_any self (arg_int a) d w = (Raise ResolutionError, w).
Proof.
  intros Hd. split; [by apply Node_init_raises |].
  unfold add_node. unfold mbind at 1, M_bind at 1.
  by rewrite (Node_init_raises _ _ _ Hd).
Qed.

(** *** A network that has just been built *)

(** X4: the network that [Network()] has just built, before anything else
    is done to it, has no node, an empty queue and no bus: every frame
    put into it, broadcast or not, is dropped; indexing raises [KeyError];
    [get_message] with a timeout from 0 to the platform's longest wait
    (and below what a [float] holds) times out with [(None, None)]; and
    the transmit loop and [disconnect] raise [AttributeError], at once and
    without effect, because the stop event and the notifier exist only
    after [connect]. *)
Theorem fresh_network_is_idle w :
  exists w',
    let s := length (w_nets w) in
    Network__init__ w = (Return s, w')
    /\ w_nodes w' = w_nodes w
    /\ w_trace w' = w_trace w
    /\ (forall s0 net0, w_nets w !! s0 = Some net0 -> w_nets w' !! s0 = Some net0)
    /\ (forall can_id data, put_message s can_id data w' = (Return tt, w'))
    /\ (forall k, Network__getitem__ s k w' = (Raise KeyError, w'))
    /\ Network__len__ s w' = (Return 0%nat, w')
    /\ (forall t : Q, (0 <= t)%Q -> (t < float_limit)%Q -> (t <= TIMEOUT_MAX)%Q ->
          get_message TIMEOUT_MAX s (timeout_secs t) w' = (Return (None, None), w'))
    /\ (forall fuel, _send_to_can TIMEOUT_MAX send_raises fuel s w' = (Raise AttributeError, w'))
    /\ disconnect s w' = (Raise AttributeError, w').
Proof.
  eexists. simpl. split; [reflexivity |]. simpl.
  split; [reflexivity |]. split; [reflexivity |].
  split; [intros s0 net0 H0; by apply lookup_app_l_Some |].
  match goal with |- context [Network__len__ _ ?w1] =>
    assert (Hnet : w_nets w1 !! length (w_nets w)
                   = Some (mk_Network None (mk_MessageDispatcher (length (w_nets w)))
                                      None ∅ [] (mk_nmt_Node 0 None) None None))
      by (simpl; by apply list_lookup_middle)
  end.
  split.
  { intros can_id data. unfold put_message. unfold_M. simpl in Hnet. simpl.
    rewrite Hnet. simpl. case_decide.
    - unfold dict_values. by rewrite map_to_list_empty.
    - by rewrite lookup_empty. }
  split; [intros k; by rewrite (getitem_run _ _ _ _ Hnet) |].
  split; [by rewrite (len_run _ _ _ Hnet) |].
  split.
  { intros t Ht Hf Hmax. apply Qle_bool_iff in Ht, Hmax. apply float_limit_lt in Hf.
    rewrite (get_message_run _ _ _ _ Hnet Ht Hf). simpl. by rewrite Hmax. }
  split.
  - intros fuel. destruct fuel; simpl; unfold_M; simpl in Hnet; simpl;
      by rewrite Hnet.
  - unfold disconnect. unfold_M. simpl in Hnet. simpl. by rewrite Hnet.
Qed.

(** *** One node in two networks *)

(** X5: a [Node] object added to one network and then to another is in
    both registries, and both route frames for its address to it; its
    [network] names the second only. *)
Theorem node_in_two_networks s1 s2 net1 net2 r n d w :
  s1 <> s2 ->
  w_nets w !! s1 = Some net1 ->
  w_nets w !! s2 = Some net2 ->
  w_nodes w !! r = Some n ->
  exists w' n',
    (add_node import_any s1 (arg_Node r) d;; add_node import_any s2 (arg_Node r) d) w
    = (Return r, w')
    /\ w_nodes w' !! r = Some n'
    /\ Node_network n' = Some s2
    /\ Node_id n' = Node_id n
    /\ Node_service_callbacks n' = Node_service_callbacks n
    /\ (forall can_id data,
          Z.land can_id 0x7F = Node_id n -> Node_id n <> 0 ->
          put_message s1 can_id data w' = (Return tt, add_trace w' (service_calls n can_id data))
          /\ put_message s2 can_id data w'
             = (Return tt, add_trace w' (service_calls n can_id data))).
Proof.
  intros Hne Hnet1 Hnet2 Hn.
  assert (Hr : (r < length (w_nodes w))%nat) by (by eapply lookup_lt_Some).
  assert (Hl1 : (s1 < length (w_nets w))%nat) by (by eapply lookup_lt_Some).
  assert (Hl2 : (s2 < length (w_nets w))%nat) by (by eapply lookup_lt_Some).
  eexists _, _. split.
  { unfold mbind, M_bind. rewrite (add_node_object_run _ _ _ _ _ _ Hnet1 Hn).
    apply add_node_object_run; simpl.
    - rewrite list_lookup_insert_ne by done. exact Hnet2.
    - by apply list_lookup_insert_eq. }
  simpl. rewrite list_insert_insert_eq.
  split; [by apply list_lookup_insert_eq |].
  split; [reflexivity |]. split; [reflexivity |]. split; [reflexivity |].
  intros can_id data Hland Hnz. split.
  - erewrite put_message_unicast;
      [| simpl; rewrite list_lookup_insert_ne by done; by apply list_lookup_insert_eq
       | by rewrite Hland
       | simpl; rewrite Hland; apply lookup_insert_eq].
    erewrite on_message_run by (simpl; by apply list_lookup_insert_eq).
    reflexivity.
  - erewrite put_message_unicast;
      [| simpl; apply list_lookup_insert_eq; by rewrite length_insert
       | by rewrite Hland
       | simpl; rewrite Hland; apply lookup_insert_eq].
    erewrite on_message_run by (simpl; by apply list_lookup_insert_eq).
    reflexivity.
Qed.

(** *** Services registered on a node that is already in a network *)

Lemma land_masked (x : Z) : masked (Z.land x 0x780).
Proof. unfold masked. rewrite <- Z.land_assoc. reflexivity. Qed.

(** X6: a service registered on a node after it was added to a network
    is used by routing at once: a frame for the node's address whose
    function code is the registered key calls the new callback and nothing
    else, and a frame with another function code is handled as before.  A
    key that is not a function code is never used: every frame is handled
    as if the registration had not happened. *)
Theorem register_service_seen_by_routing self net a r n k cb w :
  w_nets w !! self = Some net ->
  Network_nodes net !! a = Some r ->
  w_nodes w !! r = Some n ->
  a <> 0 ->
  exists w',
    register_service r k cb w = (Return tt, w')
    /\ (forall can_id data,
          Z.land can_id 0x7F = a -> Z.land can_id 0x780 = k ->
          put_message self can_id data w'
          = (Return tt, add_trace w' [Invoke cb can_id data]))
    /\ (forall can_id data,
          Z.land can_id 0x7F = a -> Z.land can_id 0x780 <> k ->
          put_message self can_id data w'
          = (Return tt, add_trace w' (service_calls n can_id data)))
    /\ (~ masked k ->
        forall can_id data,
          on_message r can_id data w'
          = (Return tt, add_trace w' (service_calls n can_id data))).
Proof.
  intros Hnet Hr Hn Ha. eexists.
  split; [by apply register_service_run |].
  assert (Hlt : (r < length (w_nodes w))%nat) by (by eapply lookup_lt_Some).
  assert (Hon : forall can_id data w1,
    w_nodes w1 !! r
    = Some (set_Node_service_callbacks (<[k := cb]> (Node_service_callbacks n)) n) ->
    on_message r can_id data w1
    = (Return tt,
       add_trace w1 (if decide (Z.land can_id 0x780 = k)
                     then [Invoke cb can_id data]
                     else service_calls n can_id data))).
  { intros can_id data w1 Hw1. rewrite (on_message_run _ _ _ _ _ Hw1).
    unfold service_calls. simpl. case_decide as Hk.
    - by rewrite Hk, lookup_insert_eq.
    - by rewrite lookup_insert_ne. }
  split; [| split].
  - intros can_id data Hland Hk.
    erewrite put_message_unicast;
      [| simpl; exact Hnet | by rewrite Hland | by rewrite Hland].
    rewrite Hon by (simpl; by apply list_lookup_insert_eq).
    by rewrite decide_True.
  - intros can_id data Hland Hk.
    erewrite put_message_unicast;
      [| simpl; exact Hnet | by rewrite Hland | by rewrite Hland].
    rewrite Hon by (simpl; by apply list_lookup_insert_eq).
    by rewrite decide_False.
  - intros Hk can_id data.
    rewrite Hon by (simpl; by apply list_lookup_insert_eq).
    rewrite decide_False; [done |].
    intros <-. apply Hk. apply land_masked.
Qed.

(** *** Addresses that no frame names *)

Lemma land_7F_range (x : Z) : 0 <= Z.land x 0x7F <= 127.
Proof.
  change (Z.land x 0x7F) with (Z.land x (Z.ones 7)). rewrite Z.land_ones by lia.
  change (2 ^ 7) with 128.
  pose proof (Z.mod_pos_bound x 128 ltac:(lia)) as Hb. lia.
Qed.

(** X7: [add_node] takes any integer as address.  A node added under an
    address outside 1..127 is never the target of a frame with a nonzero
    address field: such frames are handled exactly as before it was added.
    It still gets every broadcast: a frame with address field 0 and
    function code [0x700] calls its heartbeat handler. *)
Theorem node_outside_address_range self net k d od w :
  keyed_world w ->
  w_nets w !! self = Some net ->
  import_any d = Some od ->
  k < 1 \/ 127 < k ->
  exists r w',
    add_node import_any self (arg_int k) d w = (Return r, w')
    /\ (forall can_id data,
          Z.land can_id 0x7F <> 0 ->
          (put_message self can_id data w').1 = (put_message self can_id data w).1
          /\ w_trace (put_message self can_id data w').2
             = w_trace (put_message self can_id data w).2)
    /\ (forall can_id data,
          Z.land can_id 0x7F = 0 -> Z.land can_id 0x780 = 0x700 ->
          exists es,
            put_message self can_id data w' = (Return tt, add_trace w' es)
            /\ Invoke (nmt_on_response r) can_id data ∈ es).
Proof.
  intros Hk Hnet Hd Hrange.
  pose proof (add_node_int_run _ _ k _ _ _ Hnet Hd) as Hrun.
  pose proof (add_node_keyed self (arg_int k) d w Hk) as Hk'.
  rewrite Hrun in Hk'. simpl in Hk'.
  eexists _, _. split; [exact Hrun |].
  assert (Hlt : (self < length (w_nets w))%nat) by (by eapply lookup_lt_Some).
  split.
  - intros can_id data Hnz.
    pose proof (land_7F_range can_id) as Hb.
    assert (Hkne : k <> Z.land can_id 0x7F) by lia.
    destruct (Network_nodes net !! Z.land can_id 0x7F) as [r0 |] eqn:Hr0.
    + assert (Hsome : is_Some (w_nodes w !! r0)).
      { pose proof (keyed_world_wf _ Hk) as Hwf. unfold wf_world in Hwf.
        rewrite Forall_lookup in Hwf. by apply (Hwf _ _ Hnet _ _ Hr0). }
      destruct Hsome as [n0 Hn0].
      rewrite (put_message_unicast _ _ _ _ w _ Hnet Hnz Hr0).
      erewrite put_message_unicast;
        [| simpl; by apply list_lookup_insert_eq | exact Hnz
         | simpl; rewrite lookup_insert_ne by done; exact Hr0].
      rewrite (on_message_run _ _ _ _ _ Hn0).
      erewrite on_message_run by (simpl; by apply lookup_app_l_Some).
      by split.
    + rewrite (put_message_unknown _ _ _ _ w Hnet Hnz Hr0).
      erewrite put_message_unknown;
        [| simpl; by apply list_lookup_insert_eq | exact Hnz
         | simpl; rewrite lookup_insert_ne by done; exact Hr0].
      by split.
  - intros can_id data Hz Hfn. eexists. split.
    + apply put_message_fan_out; [by apply keyed_world_wf | | exact Hz].
      simpl. by apply list_lookup_insert_eq.
    + apply elem_of_broadcast_calls.
      eexists k, (length (w_nodes w)), _, _. simpl.
      split; [apply lookup_insert_eq |].
      split; [rewrite lookup_app_r by lia; by rewrite Nat.sub_diag |].
      split; [| reflexivity]. simpl. by rewrite Hfn.
Qed.

(** *** The life cycle *)

(** X8: [connect] opens the bus, makes the dispatcher the one listener of
    a running notifier and clears the stop event, whatever the state
    before (never connected, or disconnected); nodes, registry and queue
    are kept.  What was queued before goes out afterwards, when every
    queued payload has at most 8 bytes and the platform can wait for the
    loop's one second: once the loop has run for as many iterations as the
    queue had entries, the bus has been handed them all, in order. *)
Theorem connect_starts_transmission self net channel w :
  w_nets w !! self = Some net ->
  exists w1 net1,
    connect self channel w = (Return tt, w1)
    /\ w_nets w1 !! self = Some net1
    /\ Network_bus net1 = Some (mk_Bus channel)
    /\ Network_stop_event net1 = Some false
    /\ Network_notifier net1 = Some (mk_Notifier [Network_dispatcher net] true)
    /\ Network_dispatcher net1 = Network_dispatcher net
    /\ Network_nodes net1 = Network_nodes net
    /\ Network_tx_queue net1 = Network_tx_queue net
    /\ w_nodes w1 = w_nodes w
    /\ w_trace w1 = w_trace w ++ [LogInfo channel]
    /\ ((1 <= TIMEOUT_MAX)%Q ->
        Forall short (Network_tx_queue net) ->
        forall fuel, (length (Network_tx_queue net) <= fuel)%nat ->
         exists w2 net2,
           _send_to_can TIMEOUT_MAX send_raises fuel self w1 = (Pending, w2)
           /\ w_nets w2 !! self = Some net2
           /\ Network_tx_queue net2 = []
           /\ sends (w_trace w2) = sends (w_trace w) ++ (frame_of <$> Network_tx_queue net)).
Proof.
  intros Hnet.
  assert (Hlt : (self < length (w_nets w))%nat) by (by eapply lookup_lt_Some).
  eexists _, _. split.
  { unfold connect. unfold_M. rewrite Hnet. reflexivity. }
  simpl. split; [by apply list_lookup_insert_eq |].
  do 8 (split; [reflexivity |]).
  intros Hmax Hshort fuel Hfuel. apply Qle_bool_iff in Hmax.
  match goal with |- context [_send_to_can _ _ _ _ ?w1] =>
    destruct (send_to_can_drains self (mk_Bus channel) fuel
                (mk_Network (Some (mk_Bus channel)) (Network_dispatcher net)
                   (Some (mk_Notifier [Network_dispatcher net] true))
                   (Network_nodes net) (Network_tx_queue net) (Network_nmt net)
                   (Some false) (Some true)) w1)
      as (w2 & net2 & Hrun & Hnet2 & Hq & Hs);
      [exact Hmax | simpl; by apply list_lookup_insert_eq | reflexivity | reflexivity
       | exact Hshort | exact Hfuel |]
  end.
  exists w2, net2. split; [exact Hrun |]. split; [exact Hnet2 |].
  split; [exact Hq |]. rewrite Hs. simpl. rewrite sends_app. simpl.
  by rewrite app_nil_r.
Qed.

(** X9: [disconnect] on a connected network returns, stops the notifier
    and sets the stop event, and keeps the bus, the registry and the
    queue.  The transmit loop then leaves at its next test, whatever the
    queue holds: it shuts the bus down and sends nothing, so entries still
    queued are not transmitted.  A second [disconnect] changes nothing. *)
Theorem disconnect_stops_loop self net b nf st th w :
  w_nets w !! self = Some net ->
  Network_bus net = Some b ->
  Network_notifier net = Some nf ->
  Network_stop_event net = Some st ->
  Network_send_thread net = Some th ->
  exists w1 net1,
    disconnect self w = (Return tt, w1)
    /\ w_nets w1 !! self = Some net1
    /\ Network_stop_event net1 = Some true
    /\ Network_notifier net1 = Some (mk_Notifier (notifier_listeners nf) false)
    /\ Network_bus net1 = Some b
    /\ Network_nodes net1 = Network_nodes net
    /\ Network_tx_queue net1 = Network_tx_queue net
    /\ w_nodes w1 = w_nodes w
    /\ w_trace w1 = w_trace w
    /\ (forall fuel,
          _send_to_can TIMEOUT_MAX send_raises fuel self w1 = (Return tt, add_trace w1 [BusShutdown]))
    /\ disconnect self w1 = (Return tt, w1).
Proof.
  intros Hnet Hbus Hnf Hst Hth.
  assert (Hlt : (self < length (w_nets w))%nat) by (by eapply lookup_lt_Some).
  eexists _, _. split.
  { unfold disconnect. unfold_M. rewrite Hnet, Hnf. simpl. rewrite Hst. simpl.
    rewrite Hth. simpl. rewrite list_insert_insert_eq. reflexivity. }
  simpl. split; [by apply list_lookup_insert_eq |].
  split; [reflexivity |]. split; [reflexivity |]. split; [exact Hbus |].
  do 4 (split; [reflexivity |]).
  split.
  - intros fuel. destruct fuel; simpl; unfold_M; simpl;
      rewrite list_lookup_insert_eq by done; simpl; by rewrite Hbus.
  - unfold disconnect. unfold_M. simpl.
    rewrite list_lookup_insert_eq by done. simpl. rewrite ?Hth. simpl.
    by rewrite !list_insert_insert_eq.
Qed.

(** *** Queue round trip *)


(** *** What routing and transmission never do *)

Lemma trace_grows_refl (P : event -> Prop) w : trace_grows P w w.
Proof. exists []. by rewrite app_nil_r. Qed.

Lemma trace_grows_trans (P : event -> Prop) w1 w2 w3 :
  trace_grows P w1 w2 -> trace_grows P w2 w3 -> trace_grows P w1 w3.
Proof.
  intros (es1 & H1 & HP1) (es2 & H2 & HP2). exists (es1 ++ es2).
  split; [by rewrite H2, H1, app_assoc | by apply Forall_app].
Qed.

Lemma trace_grows_bind {A B} (P : event -> Prop) (m : M A) (f : A -> M B) w :
  trace_grows P w (m w).2 ->
  (forall a w1, trace_grows P w1 (f a w1).2) ->
  trace_grows P w ((m ≫= f) w).2.
Proof.
  intros Hm Hf. unfold mbind, M_bind.
  destruct (m w) as [[a | e |] w1]; simpl in *; [| done | done].
  eapply trace_grows_trans; [exact Hm | apply Hf].
Qed.

Lemma routed_only_refl w : routed_only w w.
Proof. split; [done |]. split; [done |]. apply trace_grows_refl. Qed.

Lemma routed_only_trans w1 w2 w3 :
  routed_only w1 w2 -> routed_only w2 w3 -> routed_only w1 w3.
Proof.
  intros (H1 & H2 & H3) (H4 & H5 & H6).
  split; [congruence |]. split; [congruence |]. by eapply trace_grows_trans.
Qed.

Lemma on_message_routed r can_id data w :
  routed_only w (on_message r can_id data w).2.
Proof.
  unfold on_message. unfold_M.
  destruct (w_nodes w !! r) as [n |]; [| apply routed_only_refl].
  destruct (Node_service_callbacks n !! Z.land can_id 0x780);
    [| apply routed_only_refl].
  simpl. split; [done |]. split; [done |].
  eexists. split; [reflexivity |]. by repeat constructor.
Qed.

Lemma for_each_on_message_routed rs can_id data : forall w,
  routed_only w (for_each rs (fun r => on_message r can_id data) w).2.
Proof.
  induction rs as [| r rs IH]; intros w; simpl; [apply routed_only_refl |].
  unfold mbind, M_bind.
  pose proof (on_message_routed r can_id data w) as Hr.
  destruct (on_message r can_id data w) as [[[] | e |] w1]; simpl in *; try done.
  eapply routed_only_trans; [exact Hr | apply IH].
Qed.

Lemma put_message_routed self can_id data w :
  routed_only w (put_message self can_id data w).2.
Proof.
  unfold put_message. unfold_M.
  destruct (w_nets w !! self) as [net |]; [| apply routed_only_refl].
  case_decide.
  - apply for_each_on_message_routed.
  - destruct (Network_nodes net !! Z.land can_id 0x7F);
      [apply on_message_routed | apply routed_only_refl].
Qed.

(** X11: routing is read-only.  Whatever the identifier, the payload and
    the state, and also when it raises, [put_message], [on_message] and the
    dispatcher change no node and no network (no registry, no service
    table, no queue): all they do is call callbacks. *)
Theorem routing_is_read_only self r (disp : MessageDispatcher) msg can_id data w :
  routed_only w (put_message self can_id data w).2
  /\ routed_only w (on_message r can_id data w).2
  /\ routed_only w (on_message_received disp msg w).2.
Proof.
  split; [apply put_message_routed |]. split; [apply on_message_routed |].
  unfold on_message_received.
  destruct (id_type msg || is_error_frame msg || is_remote_frame msg);
    [apply routed_only_refl | apply put_message_routed].
Qed.

Lemma get_message_silent self timeout w :
  w_trace (get_message TIMEOUT_MAX self timeout w).2 = w_trace w.
Proof.
  unfold get_message. unfold_M.
  destruct (w_nets w !! self) as [net |]; [| done].
  by destruct (Queue_get TIMEOUT_MAX (Network_tx_queue net) timeout).
Qed.

Lemma transmit_no_call self item w :
  trace_grows (fun e => is_call e = false) w (transmit send_raises self item w).2.
Proof.
  destruct item as [[can_id |] data]; [| apply trace_grows_refl].
  unfold transmit, new_Message. case_decide; [apply trace_grows_refl |]. unfold_M.
  destruct (w_nets w !! self) as [net |]; [| apply trace_grows_refl].
  destruct (Network_bus net); [| apply trace_grows_refl].
  destruct (send_raises _ _); simpl.
  - exists [BusSend (mk_Message false can_id (default [] data) false false);
            LogError (mk_Message false can_id (default [] data) false false)].
    split; [by rewrite <- app_assoc | by repeat constructor].
  - eexists. split; [reflexivity | by repeat constructor].
Qed.

Lemma send_to_can_body_no_call self w :
  trace_grows (fun e => is_call e = false) w (send_to_can_body TIMEOUT_MAX send_raises self w).2.
Proof.
  unfold send_to_can_body. apply trace_grows_bind.
  - exists []. rewrite app_nil_r. split; [apply get_message_silent | constructor].
  - intros item w1. apply transmit_no_call.
Qed.

(** X12: the transmit loop never calls a service callback and never
    touches a node or a registry, however long it runs and however it
    ends: its effects are sends, log records and the shutdown of the
    bus. *)
Theorem transmit_loop_never_calls fuel self w :
  trace_grows (fun e => is_call e = false) w (_send_to_can TIMEOUT_MAX send_raises fuel self w).2
  /\ same_registries w (_send_to_can TIMEOUT_MAX send_raises fuel self w).2.
Proof.
  split; [| apply send_to_can_same].
  revert w. induction fuel as [| fuel IH]; intros w; simpl.
  - unfold_M. destruct (w_nets w !! self) as [net |]; [| apply trace_grows_refl].
    destruct (Network_stop_event net) as [[|] |]; try apply trace_grows_refl.
    destruct (Network_bus net); [| apply trace_grows_refl].
    eexists. split; [reflexivity | by repeat constructor].
  - apply trace_grows_bind.
    { unfold_M. destruct (w_nets w !! self); apply trace_grows_refl. }
    intros net w1.
    destruct (Network_stop_event net) as [[|] |]; try apply trace_grows_refl.
    + unfold_M. destruct (Network_bus net); [| apply trace_grows_refl].
      eexists. split; [reflexivity | by repeat constructor].
    + apply trace_grows_bind; [apply send_to_can_body_no_call | intros _; apply IH].
Qed.

(** *** Identifiers wider than 11 bits *)

Lemma land_low_bits (x m : Z) :
  Z.land 0x7FF m = m -> Z.land (Z.land x 0x7FF) m = Z.land x m.
Proof. intros Hm. by rewrite <- Z.land_assoc, Hm. Qed.

Lemma service_calls_retag n c1 c2 data :
  Z.land c1 0x780 = Z.land c2 0x780 ->
  service_calls n c2 data = retag c2 <$> service_calls n c1 data.
Proof.
  intros H. unfold service_calls. rewrite H.
  by destruct (Node_service_callbacks n !! Z.land c2 0x780).
Qed.

Lemma node_calls_retag w c1 c2 data r :
  Z.land c1 0x780 = Z.land c2 0x780 ->
  node_calls w c2 data r = retag c2 <$> node_calls w c1 data r.
Proof.
  intros H. unfold node_calls. destruct (w_nodes w !! r); [| done].
  by apply service_calls_retag.
Qed.

(** X13: routing looks at the low 11 bits of the identifier only.  Two
    identifiers with the same low 11 bits (any integers, negative ones
    included) reach the same callbacks in the same order with the same
    payload; each callback is passed the identifier as it was given. *)
Theorem routing_uses_low_11_bits self net c1 c2 data w :
  wf_world w ->
  w_nets w !! self = Some net ->
  Z.land c1 0x7FF = Z.land c2 0x7FF ->
  exists es,
    put_message self c1 data w = (Return tt, add_trace w es)
    /\ put_message self c2 data w = (Return tt, add_trace w (retag c2 <$> es)).
Proof.
  intros Hwf Hnet Hlow.
  assert (H7F : Z.land c1 0x7F = Z.land c2 0x7F).
  { rewrite <- (land_low_bits c1 0x7F), <- (land_low_bits c2 0x7F) by reflexivity.
    by rewrite Hlow. }
  assert (H780 : Z.land c1 0x780 = Z.land c2 0x780).
  { rewrite <- (land_low_bits c1 0x780), <- (land_low_bits c2 0x780) by reflexivity.
    by rewrite Hlow. }
  destruct (decide (Z.land c1 0x7F = 0)) as [Hz | Hnz].
  - exists (broadcast_calls w net c1 data).
    split; [by apply put_message_fan_out |].
    rewrite (put_message_fan_out _ _ _ _ _ Hwf Hnet) by (by rewrite <- H7F).
    f_equal. f_equal. unfold broadcast_calls.
    generalize (dict_values (Network_nodes net)). intros rs.
    induction rs as [| r rs IH]; [done |].
    simpl. change (list_bind _ _ ?f rs) with (rs ≫= f).
    by rewrite fmap_app, <- IH, (node_calls_retag _ c1 c2).
  - destruct (Network_nodes net !! Z.land c1 0x7F) as [r |] eqn:Hr.
    + assert (Hsome : is_Some (w_nodes w !! r)).
      { unfold wf_world in Hwf. rewrite Forall_lookup in Hwf.
        by apply (Hwf _ _ Hnet _ _ Hr). }
      destruct Hsome as [n Hn].
      exists (service_calls n c1 data).
      rewrite (put_message_unicast _ _ _ _ _ _ Hnet Hnz Hr).
      erewrite (put_message_unicast _ _ c2);
        [| exact Hnet | by rewrite <- H7F | by rewrite <- H7F].
      rewrite !(on_message_run _ _ _ _ _ Hn).
      by rewrite <- (service_calls_retag _ c1 c2).
    + exists []. simpl. rewrite add_trace_nil.
      split; [by eapply put_message_unknown |].
      eapply put_message_unknown; [exact Hnet | by rewrite <- H7F | by rewrite <- H7F].
Qed.

(** *** The shape of the worlds that programs reach *)

Lemma keeps_bind {A B} (I : World (OD:=OD) -> Prop) (m : M A) (f : A -> M B) :
  keeps I m -> (forall a, keeps I (f a)) -> keeps I (m ≫= f).
Proof.
  intros Hm Hf w Hw. unfold mbind, M_bind. specialize (Hm w Hw).
  destruct (m w) as [[a | e |] w1]; simpl in *; [| done | done].
  by apply Hf.
Qed.

Lemma keeps_ret {A} (I : World (OD:=OD) -> Prop) (a : A) : keeps I (mret a).
Proof. by intros w Hw. Qed.

Lemma graph_world_store w w' :
  w_nodes w' = w_nodes w -> w_nets w' = w_nets w -> graph_world w -> graph_world w'.
Proof. unfold graph_world. intros -> ->. done. Qed.

Lemma graph_world_routed w w' : routed_only w w' -> graph_world w -> graph_world w'.
Proof. intros (H1 & H2 & _). by apply graph_world_store. Qed.

Lemma graph_world_set_net w self net' tr :
  net_ok self net' ->
  graph_world w ->
  graph_world (mk_World (w_nodes w) (<[self := net']> (w_nets w)) tr).
Proof.
  intros Hok [Hnets Hnodes]. split; [| exact Hnodes]. simpl.
  intros s net Hs. destruct (decide (self = s)) as [<- | Hne].
  - destruct (decide (self < length (w_nets w))%nat) as [Hlt | Hge].
    + rewrite list_lookup_insert_eq in Hs by done. by injection Hs as <-.
    + rewrite list_insert_ge in Hs by lia. by apply Hnets.
  - rewrite list_lookup_insert_ne in Hs by done. by apply Hnets.
Qed.

Lemma graph_world_set_node w r n' tr :
  node_ok r n' ->
  graph_world w ->
  graph_world (mk_World (<[r := n']> (w_nodes w)) (w_nets w) tr).
Proof.
  intros Hok [Hnets Hnodes]. split; [exact Hnets |]. simpl.
  intros r0 n Hr0. destruct (decide (r = r0)) as [<- | Hne].
  - destruct (decide (r < length (w_nodes w))%nat) as [Hlt | Hge].
    + rewrite list_lookup_insert_eq in Hr0 by done. by injection Hr0 as <-.
    + rewrite list_insert_ge in Hr0 by lia. by apply Hnodes.
  - rewrite list_lookup_insert_ne in Hr0 by done. by apply Hnodes.
Qed.

Lemma keeps_modify_net self (f : Network -> Network) :
  (forall net, net_ok self net -> net_ok self (f net)) ->
  keeps (OD:=OD) graph_world (modify_net self f).
Proof.
  intros Hf w Hw. unfold_M.
  destruct (w_nets w !! self) as [net |] eqn:Hnet; [| done]. simpl.
  apply graph_world_set_net; [| done]. apply Hf. by apply (proj1 Hw).
Qed.

Lemma keeps_modify_node r (f : Node -> Node) :
  (forall n, node_ok r n -> node_ok r (f n)) ->
  keeps (OD:=OD) graph_world (modify_node r f).
Proof.
  intros Hf w Hw. unfold_M.
  destruct (w_nodes w !! r) as [n |] eqn:Hn; [| done]. simpl.
  apply graph_world_set_node; [| done]. apply Hf. by apply (proj2 Hw).
Qed.

Lemma keeps_get_node r : keeps (OD:=OD) graph_world (get_node r).
Proof. intros w Hw. unfold_M. by destruct (w_nodes w !! r). Qed.

Lemma keeps_get_net self : keeps (OD:=OD) graph_world (get_net self).
Proof. intros w Hw. unfold_M. by destruct (w_nets w !! self). Qed.

Lemma keeps_emit e : keeps (OD:=OD) graph_world (emit e).
Proof. intros w Hw. by eapply graph_world_store. Qed.

Lemma keeps_Node_init node_id d : keeps (OD:=OD) graph_world (Node__init__ import_any node_id d).
Proof.
  intros w [Hnets Hnodes]. destruct (import_any d) as [od |] eqn:Hd.
  - rewrite (Node_init_run _ _ _ _ Hd). split; [exact Hnets |]. simpl.
    intros r n Hr. apply lookup_app_Some in Hr as [Hr | [Hge Hr]].
    + by apply Hnodes.
    + apply list_lookup_singleton_Some in Hr as [Hz <-].
      assert (r = length (w_nodes w)) as -> by lia. by repeat split.
  - by rewrite (Node_init_raises _ _ _ Hd).
Qed.

Lemma keeps_add_node self node d : keeps (OD:=OD) graph_world (add_node import_any self node d).
Proof.
  unfold add_node. apply keeps_bind.
  { destruct node; [apply keeps_Node_init | apply keeps_ret]. }
  intros r. apply keeps_bind; [by apply keeps_modify_node |].
  intros _. apply keeps_bind; [apply keeps_get_node |].
  intros n. apply keeps_bind; [by apply keeps_modify_net | intros _; apply keeps_ret].
Qed.

Lemma keeps_get_message self timeout : keeps (OD:=OD) graph_world (get_message TIMEOUT_MAX self timeout).
Proof.
  intros w Hw. unfold get_message. unfold_M.
  destruct (w_nets w !! self) as [net |] eqn:Hnet; [| done].
  destruct (Queue_get TIMEOUT_MAX (Network_tx_queue net) timeout); try done.
  simpl. apply graph_world_set_net; [| done]. exact (proj1 Hw _ _ Hnet).
Qed.

Lemma keeps_transmit self item : keeps (OD:=OD) graph_world (transmit send_raises self item).
Proof.
  intros w Hw. destruct item as [[can_id |] data]; [| done].
  unfold transmit, new_Message. case_decide; [done |]. unfold_M.
  destruct (w_nets w !! self) as [net |]; [| done].
  destruct (Network_bus net); [| done].
  destruct (send_raises _ _); by eapply graph_world_store.
Qed.

Lemma keeps_send_to_can fuel self : keeps (OD:=OD) graph_world (_send_to_can TIMEOUT_MAX send_raises fuel self).
Proof.
  induction fuel as [| fuel IH]; simpl.
  - apply keeps_bind; [apply keeps_get_net |]. intros net.
    destruct (Network_stop_event net) as [[|] |]; try (by intros w Hw).
    destruct (Network_bus net); [apply keeps_emit | by intros w Hw].
  - apply keeps_bind; [apply keeps_get_net |]. intros net.
    destruct (Network_stop_event net) as [[|] |]; try (by intros w Hw).
    + destruct (Network_bus net); [apply keeps_emit | by intros w Hw].
    + apply keeps_bind; [| intros _; exact IH].
      unfold send_to_can_body.
      apply keeps_bind; [apply keeps_get_message | apply keeps_transmit].
Qed.

Lemma keeps_connect self channel : keeps (OD:=OD) graph_world (connect self channel).
Proof.
  intros w Hw. unfold connect. unfold_M.
  destruct (w_nets w !! self) as [net |] eqn:Hnet; [| done]. simpl.
  apply graph_world_set_net; [| done].
  destruct (proj1 Hw _ _ Hnet) as (Hd & _ & _).
  split; [exact Hd |]. split.
  - intros nf Hnf. simpl in Hnf. by injection Hnf as <-.
  - right. simpl. by repeat split.
Qed.

Lemma keeps_disconnect self : keeps (OD:=OD) graph_world (disconnect self).
Proof.
  intros w Hw. unfold disconnect. unfold_M.
  destruct (w_nets w !! self) as [net |] eqn:Hnet; [| done].
  destruct (proj1 Hw _ _ Hnet) as (Hd & Hl & Hall).
  destruct (Network_notifier net) as [nf |] eqn:Hnf; [| done].
  destruct Hall as [(_ & Hno & _) | (Hb & _ & [st Hst] & [th Hth])]; [done |].
  simpl. rewrite Hst. simpl. rewrite Hth. simpl.
  rewrite list_insert_insert_eq. apply graph_world_set_net; [| done].
  split; [exact Hd |]. split.
  - intros nf' Hnf'. simpl in Hnf'. injection Hnf' as <-. simpl. by apply Hl.
  - right. simpl. by repeat split.
Qed.

Lemma run_op_graph o w :
  graph_world w -> graph_world (run_op TIMEOUT_MAX import_any send_raises o w).
Proof.
  intros Hw. destruct o; simpl.
  - destruct Hw as [Hnets Hnodes]. split; [| exact Hnodes]. simpl.
    intros s net Hs. apply lookup_app_Some in Hs as [Hs | [Hge Hs]].
    + by apply Hnets.
    + apply list_lookup_singleton_Some in Hs as [Hz <-].
      split; [simpl; lia |]. split; [done |]. left. by repeat split.
  - by apply keeps_Node_init.
  - unfold register_service. by apply keeps_modify_node.
  - eapply graph_world_routed; [apply on_message_routed | done].
  - by apply keeps_connect.
  - by apply keeps_disconnect.
  - by apply keeps_add_node.
  - unfold send_message. by apply keeps_modify_net.
  - by apply keeps_get_message.
  - eapply graph_world_routed; [apply put_message_routed | done].
  - by apply keeps_send_to_can.
  - eapply graph_world_routed; [| done].
    unfold on_message_received.
    destruct (id_type msg || is_error_frame msg || is_remote_frame msg);
      [apply routed_only_refl | apply put_message_routed].
Qed.

Lemma reachable_graph w :
  reachable TIMEOUT_MAX import_any send_raises w -> graph_world w.
Proof.
  intros [ops ->].
  assert (H : forall w0, graph_world w0 ->
                graph_world (run_ops TIMEOUT_MAX import_any send_raises ops w0)).
  { induction ops as [| o ops IH]; intros w0 Hw0; [done |].
    simpl. apply IH. by apply run_op_graph. }
  apply H. split; intros i x Hi; simpl in Hi; by rewrite lookup_nil in Hi.
Qed.

(** X14: in every world that a program reaches through the methods of the
    module, a registry holds only nodes of the store, each under its own
    [id], and routing a frame does not raise, whatever the identifier: it
    returns after calling callbacks of registered nodes. *)
Theorem reachable_routing_returns self net can_id data w :
  reachable TIMEOUT_MAX import_any send_raises w ->
  w_nets w !! self = Some net ->
  (forall k r, Network_nodes net !! k = Some r ->
     exists n, w_nodes w !! r = Some n /\ Node_id n = k)
  /\ exists es,
       put_message self can_id data w = (Return tt, add_trace w es)
       /\ forall e, e ∈ es ->
            exists k r n cb,
              Network_nodes net !! k = Some r /\ w_nodes w !! r = Some n /\
              Node_id n = k /\
              Node_service_callbacks n !! Z.land can_id 0x780 = Some cb /\
              e = Invoke cb can_id data.
Proof.
  intros [ops ->] Hnet.
  assert (Hk : keyed_world (run_ops TIMEOUT_MAX import_any send_raises ops empty_world)).
  { apply run_ops_keyed. unfold keyed_world. simpl. constructor. }
  assert (Hkeys : forall k r, Network_nodes net !! k = Some r ->
            exists n, w_nodes (run_ops TIMEOUT_MAX import_any send_raises ops empty_world) !! r = Some n
                      /\ Node_id n = k).
  { intros k r Hr. unfold keyed_world in Hk. rewrite Forall_lookup in Hk.
    pose proof (Hk _ _ Hnet _ _ Hr) as Hkr. simpl in Hkr.
    destruct (w_nodes _ !! r) as [n |]; [| done].
    exists n. split; [done |]. simpl in Hkr. congruence. }
  split; [exact Hkeys |].
  destruct (put_message_calls self net can_id data _ (keyed_world_wf _ Hk) Hnet)
    as (es & Hes & Hin).
  exists es. split; [exact Hes |].
  intros e He. destruct (Hin e He) as (k & r & n & cb & Hr & Hn & Hcb & ->).
  exists k, r, n, cb. repeat split; try done.
  destruct (Hkeys k r Hr) as (n' & Hn' & Hid). congruence.
Qed.

(** X15: in every world that a program reaches, the dispatcher of a
    network delivers into that same network, and the network was either
    never connected or has its bus, notifier, stop event and thread all
    together.  So [disconnect] never stops half way: it raises
    [AttributeError] and changes nothing (never connected), or it returns
    with the stop event set. *)
Theorem reachable_network_shape s net w :
  reachable TIMEOUT_MAX import_any send_raises w ->
  w_nets w !! s = Some net ->
  dispatcher_network (Network_dispatcher net) = s
  /\ (forall nf, Network_notifier net = Some nf ->
        notifier_listeners nf = [Network_dispatcher net])
  /\ ((Network_bus net = None /\ disconnect s w = (Raise AttributeError, w)
       /\ forall fuel, _send_to_can TIMEOUT_MAX send_raises fuel s w = (Raise AttributeError, w))
      \/ (is_Some (Network_bus net)
          /\ exists w' net',
               disconnect s w = (Return tt, w')
               /\ w_nets w' !! s = Some net'
               /\ Network_stop_event net' = Some true
               /\ Network_tx_queue net' = Network_tx_queue net
               /\ Network_nodes net' = Network_nodes net)).
Proof.
  intros Hreach Hnet.
  destruct (proj1 (reachable_graph _ Hreach) _ _ Hnet) as (Hd & Hl & Hall).
  split; [exact Hd |]. split; [exact Hl |].
  assert (Hlt : (s < length (w_nets w))%nat) by (by eapply lookup_lt_Some).
  destruct Hall as [(Hb & Hno & Hst & Hth) | (Hb & [nf Hnf] & [st Hst] & [th Hth])].
  - left. split; [exact Hb |]. split.
    + unfold disconnect. unfold_M. by rewrite Hnet, Hno.
    + intros fuel. destruct fuel; simpl; unfold_M; by rewrite Hnet, Hst.
  - right. split; [exact Hb |]. eexists _, _. split.
    { unfold disconnect. unfold_M. rewrite Hnet, Hnf. simpl. rewrite Hst. simpl.
      rewrite Hth. simpl. rewrite list_insert_insert_eq. reflexivity. }
    simpl. split; [by apply list_lookup_insert_eq |]. by repeat split.
Qed.

(** X16: in every world that a program reaches, the two protocol engines
    of every node have that node as parent and carry its [id], and the
    state-transfer engine works on the node's own dictionary; no method
    separates a node from its engines. *)
Theorem reachable_node_engines r n w :
  reachable TIMEOUT_MAX import_any send_raises w ->
  w_nodes w !! r = Some n ->
  sdo_parent (Node_sdo n) = Some r
  /\ nmt_parent (Node_nmt n) = Some r
  /\ sdo_id (Node_sdo n) = Node_id n
  /\ nmt_id (Node_nmt n) = Node_id n
  /\ sdo_object_dictionary (Node_sdo n) = Node_object_dictionary n.
Proof.
  intros Hreach Hn. exact (proj2 (reachable_graph _ Hreach) _ _ Hn).
Qed.

End properties.

(** ** The properties on the concrete network *)

Lemma put_message_routes_unicast_witness :
  put_message 0 0x705 [Byte.x05] demo_world
  = (Return tt, add_trace demo_world [Invoke (nmt_on_response 0) 0x705 [Byte.x05]])
  /\ Z.lor (Z.land 0x705 0x7F) (Z.land 0x705 0x780) = 0x705.
Proof.
  assert (H1 : 0 <= 0x705 <= 0x7FF) by lia.
  assert (H2 : w_nets demo_world !! 0%nat = Some demo_net) by reflexivity.
  assert (H3 : Z.land 0x705 0x7F <> 0) by (vm_compute; discriminate).
  assert (H4 : Network_nodes demo_net !! Z.land 0x705 0x7F = Some 0%nat)
    by (vm_compute; reflexivity).
  assert (H5 : w_nodes demo_world !! 0%nat = Some (demo_node 0 5))
    by (vm_compute; reflexivity).
  destruct (put_message_routes_unicast 0%nat demo_net 0x705 [Byte.x05] demo_world
              0%nat (demo_node 0 5) H1 H2 H3 H4 H5) as (_ & Hrun & _ & Hlor & _).
  split; [exact Hrun | exact Hlor].
Defined.

Lemma put_message_broadcasts_witness :
  put_message 0 0x700 [Byte.x05] demo_world
  = (Return tt, add_trace demo_world (broadcast_calls demo_world demo_net 0x700 [Byte.x05]))
  /\ Invoke (nmt_on_response 0) 0x700 [Byte.x05]
       ∈ broadcast_calls demo_world demo_net 0x700 [Byte.x05]
  /\ Invoke (nmt_on_response 1) 0x700 [Byte.x05]
       ∈ broadcast_calls demo_world demo_net 0x700 [Byte.x05]
  /\ length (broadcast_calls demo_world demo_net 0x700 [Byte.x05]) = 2%nat.
Proof.
  assert (H1 : wf_world demo_world)
    by (refine (bool_decide_eq_true_1 _ _); vm_compute; reflexivity).
  assert (H2 : w_nets demo_world !! 0%nat = Some demo_net) by reflexivity.
  assert (H3 : Z.land 0x700 0x7F = 0) by reflexivity.
  destruct (put_message_broadcasts 0%nat demo_net 0x700 [Byte.x05] demo_world H1 H2 H3)
    as (Hrun & Hall & _ & Hlen).
  split; [exact Hrun |]. split; [| split].
  - apply (Hall 5 0%nat (demo_node 0 5)); vm_compute; reflexivity.
  - apply (Hall 6 1%nat (demo_node 1 6)); vm_compute; reflexivity.
  - rewrite Hlen. vm_compute. reflexivity.
Defined.

Lemma put_message_drops_witness :
  put_message 0 0x707 [Byte.x05] demo_world = (Return tt, demo_world)
  /\ put_message 0 0x185 [Byte.x05] demo_world = (Return tt, demo_world).
Proof.
  assert (H1 : w_nets demo_world !! 0%nat = Some demo_net) by reflexivity.
  assert (H2 : Z.land 0x707 0x7F <> 0) by (vm_compute; discriminate).
  assert (H3 : Network_nodes demo_net !! Z.land 0x707 0x7F = None)
    by (vm_compute; reflexivity).
  assert (H4 : Z.land 0x185 0x7F <> 0) by (vm_compute; discriminate).
  assert (H5 : Network_nodes demo_net !! Z.land 0x185 0x7F = Some 0%nat
               /\ w_nodes demo_world !! 0%nat = Some (demo_node 0 5)
               /\ Node_service_callbacks (demo_node 0 5) !! Z.land 0x185 0x780 = None)
    by (repeat split; vm_compute; reflexivity).
  split.
  - apply (put_message_drops 0%nat demo_net 0x707 [Byte.x05] demo_world H1 H2).
    left. exact H3.
  - apply (put_message_drops 0%nat demo_net 0x185 [Byte.x05] demo_world H1 H4).
    right. exists 0%nat, (demo_node 0 5). exact H5.
Defined.


Lemma add_node_registers_witness :
  exists w' net' node,
    add_node demo_import 0 (arg_int 5) None demo_world = (Return 2%nat, w')
    /\ w_nodes w' !! 2%nat = Some node
    /\ Node_id node = 5
    /\ Node_network node = Some 0%nat
    /\ w_nets w' !! 0%nat = Some net'
    /\ Network_nodes net' !! 5 = Some 2%nat
    /\ put_message 0 0x705 [Byte.x05] w'
       = (Return tt, add_trace w' [Invoke (nmt_on_response 2) 0x705 [Byte.x05]])
    /\ (forall k, Network_nodes net' !! k <> Some 0%nat).
Proof.
  assert (H1 : keyed_world demo_world)
    by (refine (bool_decide_eq_true_1 _ _); vm_compute; reflexivity).
  assert (H2 : w_nets demo_world !! 0%nat = Some demo_net) by reflexivity.
  assert (H3 : demo_import None = Some tt) by reflexivity.
  destruct (add_node_registers demo_import 0%nat demo_net 5 None tt demo_world H2 H3)
    as (w' & net' & node & Hrun & _ & Hnode & Hid & _ & Hnetw & Htab & Hnet' & Hreg & _
        & _ & Huni & Hprior).
  exists w', net', node.
  split; [exact Hrun |]. split; [exact Hnode |]. split; [exact Hid |].
  split; [exact Hnetw |]. split; [exact Hnet' |].
  split; [rewrite Hreg; apply lookup_insert_eq |].
  split.
  - destruct (Huni 0x705 [Byte.x05]) as [_ Hput]; [lia | reflexivity |].
    rewrite Hput. unfold service_calls. rewrite Htab. reflexivity.
  - apply (Hprior H1 0%nat). vm_compute. reflexivity.
Defined.

Lemma Node_init_services_witness :
  exists w' n,
    Node__init__ demo_import 7 None demo_world = (Return 2%nat, w')
    /\ w_nodes w' !! 2%nat = Some n
    /\ Node_service_callbacks n !! 0x580 = Some (sdo_on_response 2)
    /\ Node_service_callbacks n !! 0x700 = Some (nmt_on_response 2)
    /\ size (Node_service_callbacks n) = 2%nat.
Proof.
  assert (H1 : demo_import None = Some tt) by reflexivity.
  destruct (Node_init_services demo_import 7 None tt demo_world H1)
    as (w' & n & Hrun & Hn & _ & Hsdo & Hnmt & _ & Hsize & _).
  exists w', n. repeat split; assumption.
Defined.

Lemma service_table_keys_witness :
  let ops := [op_Node 5 None; op_register_service 0 0x180 (callable 1);
              op_register_service 0 0x180 (callable 2)] in
  let w := run_ops demo_TIMEOUT_MAX demo_import demo_send_raises ops empty_world in
  exists n,
    w_nodes w !! 0%nat = Some n
    /\ Node_service_callbacks n !! 0x180 = Some (callable 2)
    /\ (forall k cb, Node_service_callbacks n !! k = Some cb -> Z.land k 0x780 = k)
    /\ exists w' n',
         register_service 0 0x185 (callable 3) w = (Return tt, w')
         /\ w_nodes w' !! 0%nat = Some n'
         /\ Node_service_callbacks n' !! 0x185 = Some (callable 3)
         /\ Node_service_callbacks n' !! 0x180 = Some (callable 2).
Proof.
  intros ops w.
  assert (H1 : Forall masked_op ops)
    by (refine (bool_decide_eq_true_1 _ _); vm_compute; reflexivity).
  assert (H2 : w = run_ops demo_TIMEOUT_MAX demo_import demo_send_raises ops empty_world)
    by reflexivity.
  assert (H3 : w_nodes w !! 0%nat
               = Some (set_Node_service_callbacks
                         (<[0x180 := callable 2]> (default_services 0))
                         (fresh_node 0 5 tt)))
    by (vm_compute; reflexivity).
  destruct (service_table_keys demo_TIMEOUT_MAX demo_import demo_send_raises w 0%nat _ H3)
    as (_ & Hreg & Hkeys).
  eexists. split; [exact H3 |]. split; [vm_compute; reflexivity |].
  split; [exact (Hkeys ops H1 H2) |].
  destruct (Hreg 0x185 (callable 3)) as (w' & n' & Hrun & Hn' & Hnew & Hold & _).
  exists w', n'. split; [exact Hrun |]. split; [exact Hn' |]. split; [exact Hnew |].
  rewrite Hold by lia. vm_compute. reflexivity.
Defined.

Lemma on_message_received_filters_witness :
  on_message_received (mk_MessageDispatcher 0) (mk_Message true 0x705 [] false false)
    demo_world
  = (Return tt, demo_world)
  /\ on_message_received (mk_MessageDispatcher 0) (mk_Message false 0x705 [] false false)
       demo_world
     = (Return tt, add_trace demo_world [Invoke (nmt_on_response 0) 0x705 []]).
Proof.
  split.
  - apply (proj2 (on_message_received_filters (mk_MessageDispatcher 0)
                    (mk_Message true 0x705 [] false false) demo_world)).
    left. reflexivity.
  - rewrite (proj1 (on_message_received_filters (mk_MessageDispatcher 0)
                      (mk_Message false 0x705 [] false false) demo_world))
      by (repeat split).
    vm_compute. reflexivity.
Defined.

Lemma send_message_appends_witness :
  exists w' net',
    send_message 0 0x605 [Byte.x40] demo_world = (Return tt, w')
    /\ w_nets w' !! 0%nat = Some net'
    /\ Network_tx_queue net' = Network_tx_queue demo_net ++ [(0x605, [Byte.x40])]
    /\ Network_nodes net' = Network_nodes demo_net
    /\ w_nodes w' = w_nodes demo_world
    /\ w_trace w' = w_trace demo_world.
Proof.
  assert (H1 : w_nets demo_world !! 0%nat = Some demo_net) by reflexivity.
  destruct (send_message_appends 0%nat demo_net 0x605 [Byte.x40] demo_world H1)
    as (w' & net' & Hrun & Hnet' & Hq & Hreg & _ & _ & _ & _ & _ & _ & _ & _ & Hnodes & Htr).
  exists w', net'. repeat split; assumption.
Defined.

Lemma get_message_with_timeout_witness :
  get_message demo_TIMEOUT_MAX 0 (timeout_secs 1) demo_world = (Return (None, None), demo_world).
Proof.
  assert (H1 : w_nets demo_world !! 0%nat = Some demo_net) by reflexivity.
  assert (H2 : (0 <= 1)%Q) by (vm_compute; discriminate).
  assert (H3 : (1 < float_limit)%Q) by (vm_compute; reflexivity).
  assert (H4 : (1 <= demo_TIMEOUT_MAX)%Q) by (vm_compute; discriminate).
  apply (proj1 (get_message_with_timeout demo_TIMEOUT_MAX 0%nat demo_net 1 demo_world
                  H1 H2 H3)); [reflexivity | exact H4].
Defined.

(** A bus whose [send] always raises: the frame is still handed over, the
    error is logged, and the loop goes on with the next entry. *)
Example failing_bus_logs_and_goes_on :
  let w := (send_message 0 0x605 [Byte.x40] demo_world).2 in
  w_trace (_send_to_can demo_TIMEOUT_MAX (fun _ _ => true) 2 0 w).2
  = w_trace demo_world
    ++ [BusSend (frame_of (0x605, [Byte.x40])); LogError (frame_of (0x605, [Byte.x40]))]
  /\ (_send_to_can demo_TIMEOUT_MAX (fun _ _ => true) 2 0 w).1 = Pending.
Proof. split; vm_compute; reflexivity. Qed.

(** After [disconnect] the loop leaves at its next test and shuts the
    bus down. *)
Example stopped_loop_shuts_down :
  let w := (disconnect 0 demo_world).2 in
  _send_to_can demo_TIMEOUT_MAX demo_send_raises 1 0 w = (Return tt, add_trace w [BusShutdown]).
Proof. vm_compute. reflexivity. Qed.

(** A description that does not resolve: [add_node] raises and the world
    is as before. *)
Example unresolved_description_raises :
  add_node (fun _ : option unit => @None unit) 0 (arg_int 7) None demo_world
  = (Raise ResolutionError, demo_world).
Proof. vm_compute. reflexivity. Qed.

(** ** Where the code differs *)

(** [register_service] keeps a key that is not a function code: after
    [Node(5)] and [register_service(0x185, cb)] the table has the key
    [0x185], and [0x185 & 0x780] is [0x180]. *)
Lemma register_service_unmasked_key :
  ~ (forall (ops : list (op (Desc:=unit))) r n k cb,
       Forall node_op ops ->
       w_nodes (run_ops demo_TIMEOUT_MAX demo_import demo_send_raises ops empty_world) !! r = Some n ->
       Node_service_callbacks n !! k = Some cb ->
       Z.land k 0x780 = k).
Proof.
  intros H.
  specialize (H [op_Node 5 None; op_register_service 0 0x185 (callable 0)] 0%nat
                (set_Node_service_callbacks
                   (<[0x185 := callable 0]> (default_services 0)) (fresh_node 0 5 tt))
                0x185 (callable 0)).
  assert (Habs : Z.land 0x185 0x780 = 0x185); [| vm_compute in Habs; discriminate].
  apply H.
  - repeat constructor.
  - vm_compute. reflexivity.
  - vm_compute. reflexivity.
Qed.

(** [get_message] with a negative timeout raises [ValueError] on the
    empty queue, with a timeout above the platform's longest wait it raises
    [OverflowError], and without a timeout it waits; with an integer too
    large for a [float] it raises [OverflowError] also when the queue has
    an entry, which stays queued. *)
Lemma get_message_negative_timeout :
  Network_tx_queue demo_net = []
  /\ get_message demo_TIMEOUT_MAX 0 (timeout_secs (-1)) demo_world
     = (Raise ValueError, demo_world)
  /\ get_message demo_TIMEOUT_MAX 0 (timeout_secs (inject_Z (10 ^ 10))) demo_world
     = (Raise OverflowError, demo_world)
  /\ get_message demo_TIMEOUT_MAX 0 timeout_None demo_world = (Pending, demo_world)
  /\ (let w := (send_message 0 0x605 [Byte.x40] demo_world).2 in
      get_message demo_TIMEOUT_MAX 0 (timeout_secs (inject_Z (10 ^ 400))) w
      = (Raise OverflowError, w))
  /\ ~ (forall timeout,
          (get_message demo_TIMEOUT_MAX 0 timeout demo_world).1 = Return (None, None)).
Proof.
  split; [reflexivity |]. split; [vm_compute; reflexivity |].
  split; [vm_compute; reflexivity |]. split; [vm_compute; reflexivity |].
  split; [vm_compute; reflexivity |].
  intros H. specialize (H (timeout_secs (-1))). vm_compute in H. discriminate.
Qed.


(** ** Further properties on the concrete networks *)

Lemma Network_iter_agrees_witness :
  exists keys,
    Network__iter__ 0 demo_world = (Return keys, demo_world)
    /\ Network__len__ 0 demo_world = (Return (length keys), demo_world)
    /\ NoDup keys
    /\ 5 ∈ keys /\ 7 ∉ keys.
Proof.
  assert (H1 : w_nets demo_world !! 0%nat = Some demo_net) by reflexivity.
  destruct (Network_iter_agrees 0%nat demo_net demo_world H1)
    as (keys & Hiter & Hlen & Hnd & _ & Hin & Hout).
  exists keys. split; [exact Hiter |]. split; [exact Hlen |]. split; [exact Hnd |].
  split.
  - apply Hin. exists 0%nat. vm_compute. reflexivity.
  - apply Hout. vm_compute. reflexivity.
Defined.

Lemma add_node_then_lookup_witness :
  exists r w',
    add_node demo_import 0 (arg_int 7) None demo_world = (Return r, w')
    /\ Network__getitem__ 0 7 w' = (Return r, w')
    /\ Network__contains__ 0 7 w' = (Return true, w')
    /\ Network__len__ 0 w' = (Return 3%nat, w').
Proof.
  assert (H1 : w_nets demo_world !! 0%nat = Some demo_net) by reflexivity.
  assert (H2 : demo_import None = Some tt) by reflexivity.
  destruct (add_node_then_lookup demo_import 0%nat demo_net 7 None tt demo_world H1 H2)
    as (r & w' & Hrun & Hget & Hin & _ & Hfree & _).
  exists r, w'. split; [exact Hrun |]. split; [exact Hget |]. split; [exact Hin |].
  apply Hfree. vm_compute. reflexivity.
Defined.

Lemma add_node_object_witness :
  exists w',
    add_node demo_refuse 0 (arg_Node 1) None demo_world = (Return 1%nat, w')
    /\ length (w_nodes w') = 2%nat
    /\ add_node demo_refuse 0 (arg_Node 1) None w' = (Return 1%nat, w').
Proof.
  assert (H1 : w_nets demo_world !! 0%nat = Some demo_net) by reflexivity.
  assert (H2 : w_nodes demo_world !! 1%nat = Some (demo_node 1 6))
    by (vm_compute; reflexivity).
  destruct (add_node_object demo_refuse 0%nat demo_net 1%nat (demo_node 1 6) None
              demo_world H1 H2) as (w' & Hrun & _ & Hlen & _ & _ & Hagain).
  exists w'. split; [exact Hrun |]. split; [exact Hlen | exact Hagain].
Defined.

Lemma add_node_unresolved_witness :
  Node__init__ demo_refuse 7 None demo_world = (Raise ResolutionError, demo_world)
  /\ add_node demo_refuse 0 (arg_int 7) None demo_world
     = (Raise ResolutionError, demo_world).
Proof.
  assert (H1 : demo_refuse None = None) by reflexivity.
  exact (add_node_unresolved demo_refuse 0%nat 7 None demo_world H1).
Defined.

Lemma node_in_two_networks_witness :
  exists w' n',
    (add_node demo_import 0 (arg_Node 0) None;;
     add_node demo_import 1 (arg_Node 0) None) demo_world2 = (Return 0%nat, w')
    /\ w_nodes w' !! 0%nat = Some n'
    /\ Node_network n' = Some 1%nat
    /\ put_message 0 0x705 [] w'
       = (Return tt, add_trace w' [Invoke (nmt_on_response 0) 0x705 []])
    /\ put_message 1 0x705 [] w'
       = (Return tt, add_trace w' [Invoke (nmt_on_response 0) 0x705 []]).
Proof.
  assert (H0 : 0%nat <> 1%nat) by lia.
  assert (H1 : w_nets demo_world2 !! 0%nat
               = Some (mk_Network None (mk_MessageDispatcher 0) None ∅ []
                                  (mk_nmt_Node 0 None) None None)) by reflexivity.
  assert (H2 : w_nets demo_world2 !! 1%nat
               = Some (mk_Network None (mk_MessageDispatcher 1) None ∅ []
                                  (mk_nmt_Node 0 None) None None)) by reflexivity.
  assert (H3 : w_nodes demo_world2 !! 0%nat = Some (fresh_node 0 5 tt))
    by (vm_compute; reflexivity).
  destruct (node_in_two_networks demo_import 0%nat 1%nat _ _ 0%nat _ None demo_world2
              H0 H1 H2 H3) as (w' & n' & Hrun & Hn' & Hnet & _ & _ & Hroute).
  exists w', n'. split; [exact Hrun |]. split; [exact Hn' |]. split; [exact Hnet |].
  apply (Hroute 0x705 []); [reflexivity | simpl; lia].
Defined.

Lemma register_service_seen_by_routing_witness :
  exists w',
    register_service 0 0x180 (callable 1) demo_world = (Return tt, w')
    /\ put_message 0 0x185 [Byte.x01] w'
       = (Return tt, add_trace w' [Invoke (callable 1) 0x185 [Byte.x01]]).
Proof.
  assert (H1 : w_nets demo_world !! 0%nat = Some demo_net) by reflexivity.
  assert (H2 : Network_nodes demo_net !! 5 = Some 0%nat) by (vm_compute; reflexivity).
  assert (H3 : w_nodes demo_world !! 0%nat = Some (demo_node 0 5))
    by (vm_compute; reflexivity).
  assert (H4 : 5 <> 0) by lia.
  destruct (register_service_seen_by_routing 0%nat demo_net 5 0%nat (demo_node 0 5)
              0x180 (callable 1) demo_world H1 H2 H3 H4) as (w' & Hrun & Hnew & _).
  exists w'. split; [exact Hrun |]. apply Hnew; reflexivity.
Defined.

Lemma node_outside_address_range_witness :
  exists r w',
    add_node demo_import 0 (arg_int 200) None demo_world = (Return r, w')
    /\ w_trace (put_message 0 0x748 [] w').2 = w_trace (put_message 0 0x748 [] demo_world).2
    /\ exists es,
         put_message 0 0x700 [] w' = (Return tt, add_trace w' es)
         /\ Invoke (nmt_on_response r) 0x700 [] ∈ es.
Proof.
  assert (H1 : keyed_world demo_world)
    by (refine (bool_decide_eq_true_1 _ _); vm_compute; reflexivity).
  assert (H2 : w_nets demo_world !! 0%nat = Some demo_net) by reflexivity.
  assert (H3 : demo_import None = Some tt) by reflexivity.
  assert (H4 : 200 < 1 \/ 127 < 200) by lia.
  destruct (node_outside_address_range demo_import 0%nat demo_net 200 None tt demo_world
              H1 H2 H3 H4) as (r & w' & Hrun & Huni & Hbro).
  exists r, w'. split; [exact Hrun |]. split.
  - apply (Huni 0x748 []). vm_compute. discriminate.
  - apply (Hbro 0x700 []); reflexivity.
Defined.

Lemma connect_starts_transmission_witness :
  let w := (send_message 0 0x605 [Byte.x40] demo_world2).2 in
  exists w1 w2 net2,
    connect 0 "can0" w = (Return tt, w1)
    /\ _send_to_can demo_TIMEOUT_MAX demo_send_raises 3 0 w1 = (Pending, w2)
    /\ w_nets w2 !! 0%nat = Some net2
    /\ Network_tx_queue net2 = []
    /\ sends (w_trace w2) = [frame_of (0x605, [Byte.x40])].
Proof.
  intros w.
  assert (H1 : w_nets w !! 0%nat
               = Some (mk_Network None (mk_MessageDispatcher 0) None ∅
                                  [(0x605, [Byte.x40])] (mk_nmt_Node 0 None) None None))
    by reflexivity.
  assert (H2 : (1 <= demo_TIMEOUT_MAX)%Q) by (vm_compute; discriminate).
  destruct (connect_starts_transmission demo_TIMEOUT_MAX demo_send_raises 0%nat _ "can0"
              w H1)
    as (w1 & net1 & Hrun & _ & _ & _ & _ & _ & _ & _ & _ & _ & Hloop).
  destruct (Hloop H2) with (fuel := 3%nat) as (w2 & net2 & Hrun2 & Hnet2 & Hq & Hs);
    [repeat constructor; simpl; lia | simpl; lia |].
  exists w1, w2, net2. split; [exact Hrun |]. split; [exact Hrun2 |].
  split; [exact Hnet2 |]. split; [exact Hq |]. rewrite Hs. vm_compute. reflexivity.
Defined.

Lemma disconnect_stops_loop_witness :
  let w := (send_message 0 0x605 [Byte.x40] demo_world).2 in
  exists w1 net1,
    disconnect 0 w = (Return tt, w1)
    /\ w_nets w1 !! 0%nat = Some net1
    /\ Network_tx_queue net1 = [(0x605, [Byte.x40])]
    /\ _send_to_can demo_TIMEOUT_MAX demo_send_raises 4 0 w1 = (Return tt, add_trace w1 [BusShutdown])
    /\ disconnect 0 w1 = (Return tt, w1).
Proof.
  intros w.
  assert (H1 : w_nets w !! 0%nat
               = Some (set_Network_tx_queue [(0x605, [Byte.x40])] demo_net))
    by reflexivity.
  assert (H2 : Network_bus (set_Network_tx_queue [(0x605, [Byte.x40])] demo_net)
               = Some (mk_Bus "can0")) by reflexivity.
  assert (H3 : Network_notifier (set_Network_tx_queue [(0x605, [Byte.x40])] demo_net)
               = Some (mk_Notifier [mk_MessageDispatcher 0] true)) by reflexivity.
  assert (H4 : Network_stop_event (set_Network_tx_queue [(0x605, [Byte.x40])] demo_net)
               = Some false) by reflexivity.
  assert (H5 : Network_send_thread (set_Network_tx_queue [(0x605, [Byte.x40])] demo_net)
               = Some true) by reflexivity.
  destruct (disconnect_stops_loop demo_TIMEOUT_MAX demo_send_raises 0%nat _ _ _ _ _ w H1 H2 H3 H4 H5)
    as (w1 & net1 & Hrun & Hnet1 & _ & _ & _ & _ & Hq & _ & _ & Hloop & Hagain).
  exists w1, net1. split; [exact Hrun |]. split; [exact Hnet1 |].
  split; [rewrite Hq; reflexivity |]. split; [apply Hloop | exact Hagain].
Defined.


Lemma routing_uses_low_11_bits_witness :
  exists es,
    put_message 0 0x705 [] demo_world = (Return tt, add_trace demo_world es)
    /\ put_message 0 (-251) [] demo_world
       = (Return tt, add_trace demo_world (retag (-251) <$> es))
    /\ put_message 0 0x1705 [] demo_world
       = (Return tt, add_trace demo_world (retag 0x1705 <$> es)).
Proof.
  assert (H1 : wf_world demo_world)
    by (refine (bool_decide_eq_true_1 _ _); vm_compute; reflexivity).
  assert (H2 : w_nets demo_world !! 0%nat = Some demo_net) by reflexivity.
  assert (H3 : Z.land 0x705 0x7FF = Z.land (-251) 0x7FF) by reflexivity.
  assert (H4 : Z.land 0x705 0x7FF = Z.land 0x1705 0x7FF) by reflexivity.
  destruct (routing_uses_low_11_bits 0%nat demo_net 0x705 (-251) [] demo_world H1 H2 H3)
    as (es & Hes & Hneg).
  destruct (routing_uses_low_11_bits 0%nat demo_net 0x705 0x1705 [] demo_world H1 H2 H4)
    as (es' & Hes' & Hwide).
  exists es. split; [exact Hes |]. split; [exact Hneg |].
  rewrite Hes in Hes'. injection Hes' as Heq.
  rewrite Heq. exact Hwide.
Defined.

Lemma reachable_routing_returns_witness :
  exists es,
    put_message 0 0x700 [Byte.x05] demo_world = (Return tt, add_trace demo_world es).
Proof.
  assert (H1 : reachable demo_TIMEOUT_MAX demo_import demo_send_raises demo_world)
    by (by exists demo_ops).
  assert (H2 : w_nets demo_world !! 0%nat = Some demo_net) by reflexivity.
  destruct (reachable_routing_returns demo_TIMEOUT_MAX demo_import demo_send_raises 0%nat demo_net 0x700
              [Byte.x05] demo_world H1 H2) as (_ & es & Hes & _).
  by exists es.
Defined.

Lemma reachable_network_shape_witness :
  dispatcher_network (Network_dispatcher demo_net) = 0%nat
  /\ exists w', disconnect 0 demo_world = (Return tt, w').
Proof.
  assert (H1 : reachable demo_TIMEOUT_MAX demo_import demo_send_raises demo_world)
    by (by exists demo_ops).
  assert (H2 : w_nets demo_world !! 0%nat = Some demo_net) by reflexivity.
  destruct (reachable_network_shape demo_TIMEOUT_MAX demo_import demo_send_raises 0%nat demo_net
              demo_world H1 H2) as (Hd & _ & [(Hb & _) | (_ & w' & net' & Hrun & _)]).
  - discriminate Hb.
  - split; [exact Hd |]. by exists w'.
Defined.

Lemma reachable_node_engines_witness :
  sdo_parent (Node_sdo (demo_node 1 6)) = Some 1%nat
  /\ nmt_parent (Node_nmt (demo_node 1 6)) = Some 1%nat
  /\ sdo_id (Node_sdo (demo_node 1 6)) = 6.
Proof.
  assert (H1 : reachable demo_TIMEOUT_MAX demo_import demo_send_raises demo_world)
    by (by exists demo_ops).
  assert (H2 : w_nodes demo_world !! 1%nat = Some (demo_node 1 6))
    by (vm_compute; reflexivity).
  destruct (reachable_node_engines demo_TIMEOUT_MAX demo_import demo_send_raises 1%nat (demo_node 1 6)
              demo_world H1 H2) as (Hs & Hn & Hid & _).
  split; [exact Hs |]. split; [exact Hn | exact Hid].
Defined.
